(** * MS5611 barometric sensor driver (STM32 HAL, SPI): model and properties

    Shallow embedding of [MS5611SPI.c] / [MS5611SPI.h].

    - C integers are [Z] with the wrap-around of each width written out.
    - The HAL (SPI transfers, GPIO writes, delay) is the environment: every
      call is logged as an [event], and the status and the bytes a transfer
      returns are chosen by an oracle that sees the whole history of calls.
    - Objects reached through pointers ([promData], [*raw_data]) are passed
      in and returned. *)

From Stdlib Require Import ZArith List Bool Lia.
Import ListNotations.
Local Open Scope Z_scope.

(** ** Fixed-width integers *)

Module CInt.

(** Value of a C unsigned integer of [w] bits. *)
Definition wrapu (w z : Z) : Z := z mod 2 ^ w.

(** Value of a C signed integer of [w] bits (two's complement). *)
Definition wraps (w z : Z) : Z := (z + 2 ^ (w - 1)) mod 2 ^ w - 2 ^ (w - 1).

Definition u8 : Z -> Z := wrapu 8.
Definition u16 : Z -> Z := wrapu 16.
Definition u32 : Z -> Z := wrapu 32.
Definition s32 : Z -> Z := wraps 32.
Definition s64 : Z -> Z := wraps 64.

Definition in_s32 (z : Z) : Prop := - 2 ^ 31 <= z < 2 ^ 31.
Definition in_s64 (z : Z) : Prop := - 2 ^ 63 <= z < 2 ^ 63.

End CInt.
Import CInt.

(** ** Data types of [MS5611SPI.h] *)

Inductive MS5611StateTypeDef : Type :=
| MS5611_STATE_FAILED
| MS5611_STATE_READY
| MS5611_STATE_BUSY
| MS5611_HAL_ERROR.

(** [struct promData]: eight [uint16_t] words, in declaration order. *)
Record promData : Type := mkProm {
  reserved : Z;
  sens : Z;
  off : Z;
  tcs : Z;
  tco : Z;
  tref : Z;
  tempsens : Z;
  crc : Z
}.

(** Every field holds a 16-bit value. *)
Definition prom_wf (p : promData) : Prop :=
  0 <= reserved p < 65536 /\ 0 <= sens p < 65536 /\ 0 <= off p < 65536 /\
  0 <= tcs p < 65536 /\ 0 <= tco p < 65536 /\ 0 <= tref p < 65536 /\
  0 <= tempsens p < 65536 /\ 0 <= crc p < 65536.

(** [MS5611_Raw_Data_TypeDef]: two [uint32_t]. *)
Record MS5611_Raw_Data_TypeDef : Type := mkRaw {
  raw_pressure : Z;
  raw_temperature : Z
}.

(** The sensor delivers 24-bit conversion results. *)
Definition raw24 (s : MS5611_Raw_Data_TypeDef) : Prop :=
  0 <= raw_pressure s < 2 ^ 24 /\ 0 <= raw_temperature s < 2 ^ 24.

(** [MS5611_Converted_Data_TypeDef]: two [int32_t]. *)
Record MS5611_Converted_Data_TypeDef : Type := mkConv {
  pressure : Z;
  temperature : Z
}.

(** ** Compensation: [MS5611_Data_Convert] *)

(** The local variables of [MS5611_Data_Convert] on leaving the function.
    [low_branch] and [cold_branch] record whether the bodies of
    [if (TEMP < 2000)] and [if (TEMP < -1500)] ran; [TEMP1], [OFF1] and
    [SENS1] are [TEMP], [OFF] and [SENS] as first assigned, before the
    second-order correction; [OFF2_low] and [SENS2_low] are [OFF2] and [SENS2]
    as initialised, before the very-cold additions. *)
Record convert_locals : Type := mkLocals {
  dT : Z;
  TEMP1 : Z;
  OFF1 : Z;
  SENS1 : Z;
  low_branch : bool;
  cold_branch : bool;
  T2 : Z;
  TEMPM : Z;
  OFF2_low : Z;
  SENS2_low : Z;
  TEMPP : Z;
  TEMPP2 : Z;
  OFF2 : Z;
  SENS2 : Z;
  TEMP : Z;
  OFF : Z;
  SENS : Z
}.

(** Line by line.  [x >> n] on a signed operand is the arithmetic shift the
    target compiler emits, [Z.shiftr].  [TEMPP * TEMPP] is an [int32_t]
    product: where it leaves the [int32_t] range (undefined in C) the model
    takes the low 32 bits, as the 32-bit multiply instruction does. *)
Definition Data_Convert_locals (prom : promData) (sample : MS5611_Raw_Data_TypeDef)
  : convert_locals :=
  let dT := s32 (u32 (raw_temperature sample - s32 (Z.shiftl (tref prom) 8))) in
  let TEMP := s32 (s64 (2000 + Z.shiftr (s64 (dT * tempsens prom)) 23)) in
  let OFF := s64 (s64 (Z.shiftl (off prom) 16) + Z.shiftr (s64 (tco prom * dT)) 7) in
  let SENS := s64 (s64 (Z.shiftl (sens prom) 15) + Z.shiftr (s64 (tcs prom * dT)) 8) in
  if TEMP <? 2000 then
    let T2 := s32 (Z.shiftr (s64 (dT * dT)) 31) in
    let TEMPM := s32 (TEMP - 2000) in
    let OFF2 := Z.shiftr (s64 (s64 (5 * TEMPM) * TEMPM)) 1 in
    let SENS2 := Z.shiftr (s64 (s64 (5 * TEMPM) * TEMPM)) 2 in
    if TEMP <? -1500 then
      let TEMPP := s32 (TEMP + 1500) in
      let TEMPP2 := s32 (TEMPP * TEMPP) in
      let OFF2' := s64 (OFF2 + s64 (7 * TEMPP2)) in
      let SENS2' := s64 (SENS2 + Z.shiftr (s64 (11 * TEMPP2)) 1) in
      mkLocals dT TEMP OFF SENS true true T2 TEMPM OFF2 SENS2 TEMPP TEMPP2
               OFF2' SENS2'
               (s32 (TEMP - T2)) (s64 (OFF - OFF2')) (s64 (SENS - SENS2'))
    else
      mkLocals dT TEMP OFF SENS true false T2 TEMPM OFF2 SENS2 0 0
               OFF2 SENS2
               (s32 (TEMP - T2)) (s64 (OFF - OFF2)) (s64 (SENS - SENS2))
  else
    mkLocals dT TEMP OFF SENS false false 0 0 0 0 0 0 0 0 TEMP OFF SENS.

(** [MS5611_Data_Convert(sample, value)] with the file-scope [promData]
    passed as [prom]; the result is [*value]. *)
Definition MS5611_Data_Convert (prom : promData) (sample : MS5611_Raw_Data_TypeDef)
  : MS5611_Converted_Data_TypeDef :=
  let l := Data_Convert_locals prom sample in
  {| pressure :=
       s32 (Z.shiftr (s64 (Z.shiftr (s64 (raw_pressure sample * SENS l)) 21 - OFF l)) 15);
     temperature := TEMP l |}.

(** The calibration words of the worked example. *)
Definition example_prom : promData :=
  mkProm 0 40127 36924 23317 23282 33464 28312 0.


(** ** The HAL as environment *)

Inductive HAL_StatusTypeDef : Type := HAL_OK | HAL_ERROR | HAL_BUSY | HAL_TIMEOUT.

Inductive GPIO_PinState : Type := GPIO_PIN_RESET | GPIO_PIN_SET.

(** [MS5611_HW_InitTypeDef]; the two pointers are kept as addresses. *)
Record MS5611_HW_InitTypeDef : Type := mkHW {
  SPIhandler : Z;
  CS_GPIOport : Z;
  CS_GPIOpin : Z;
  SPI_Timeout : Z
}.

(** One HAL call, with the arguments the driver passed. *)
Inductive event : Type :=
| WritePin (port pin : Z) (s : GPIO_PinState)
| Transmit (hspi : Z) (data : list Z) (size timeout : Z)
| Receive (hspi : Z) (size timeout : Z)
| Delay (ms : Z).

(** What a transfer answers: its status and, for a receive, the bytes the
    HAL wrote to the front of the buffer. *)
Record response : Type := mkResp {
  status : HAL_StatusTypeDef;
  rx : list Z
}.

(** The environment answers a call knowing every call made so far, the
    current one last. *)
Definition oracle : Type := list event -> response.

(** A driver computation: reads the oracle and the history before it, and
    yields a value and the calls it made itself. *)
Definition HAL (A : Type) : Type := oracle -> list event -> A * list event.

Definition ret {A} (a : A) : HAL A := fun _ _ => (a, []).

Definition bind {A B} (m : HAL A) (f : A -> HAL B) : HAL B :=
  fun env hist =>
    let r1 := m env hist in
    let r2 := f (fst r1) env (hist ++ snd r1) in
    (fst r2, snd r1 ++ snd r2).

Notation "x <- m ;; k" := (bind m (fun x => k))
  (at level 61, m at next level, right associativity).
Notation "m ;;; k" := (bind m (fun _ => k))
  (at level 61, right associativity).

Definition is_OK (s : HAL_StatusTypeDef) : bool :=
  match s with HAL_OK => true | _ => false end.

Definition HAL_SPI_Transmit (hspi : Z) (pData : list Z) (Size Timeout : Z)
  : HAL HAL_StatusTypeDef :=
  fun env hist =>
    let e := Transmit hspi pData Size Timeout in
    (status (env (hist ++ [e])), [e]).

(** Bytes of the buffer after a receive: the bytes the HAL wrote, then the
    old content it did not reach. *)
Fixpoint fill (buf written : list Z) : list Z :=
  match buf, written with
  | [], _ => []
  | _ :: _, [] => buf
  | _ :: buf', b :: written' => u8 b :: fill buf' written'
  end.

(** [pData] is the content of the [Size] bytes the buffer pointer designates;
    the new content is returned with the status. *)
Definition HAL_SPI_Receive (hspi : Z) (pData : list Z) (Size Timeout : Z)
  : HAL (HAL_StatusTypeDef * list Z) :=
  fun env hist =>
    let e := Receive hspi Size Timeout in
    let r := env (hist ++ [e]) in
    ((status r, fill pData (rx r)), [e]).

Definition HAL_GPIO_WritePin (port pin : Z) (s : GPIO_PinState) : HAL unit :=
  fun _ _ => (tt, [WritePin port pin s]).

Definition HAL_Delay (ms : Z) : HAL unit :=
  fun _ _ => (tt, [Delay ms]).

(** ** Commands of [MS5611SPI.h] *)

Definition RESET_COMMAND : Z := 0x1E.
Definition PROM_READ (address : Z) : Z := Z.lor 0xA0 (Z.shiftl address 1).
Definition CONVERT_D1_COMMAND : Z := 0x40.
Definition CONVERT_D2_COMMAND : Z := 0x50.
Definition READ_ADC_COMMAND : Z := 0x00.

Definition MS5611_OSR_256 : Z := 0x00.
Definition MS5611_OSR_512 : Z := 0x02.
Definition MS5611_OSR_1024 : Z := 0x04.
Definition MS5611_OSR_2048 : Z := 0x06.
Definition MS5611_OSR_4096 : Z := 0x08.

(** ** [promData] seen through [uint16_t *] and [uint8_t *]

    The struct has no padding, so [structPointer + i] is its [i]-th field.
    The target (Cortex-M) is little-endian: byte 0 of a word is its low
    byte. *)

Definition load16 (p : promData) (i : Z) : Z :=
  match i with
  | 0 => reserved p
  | 1 => sens p
  | 2 => off p
  | 3 => tcs p
  | 4 => tco p
  | 5 => tref p
  | 6 => tempsens p
  | 7 => crc p
  | _ => 0
  end.

Definition store16 (p : promData) (i : Z) (w : Z) : promData :=
  match i with
  | 0 => mkProm w (sens p) (off p) (tcs p) (tco p) (tref p) (tempsens p) (crc p)
  | 1 => mkProm (reserved p) w (off p) (tcs p) (tco p) (tref p) (tempsens p) (crc p)
  | 2 => mkProm (reserved p) (sens p) w (tcs p) (tco p) (tref p) (tempsens p) (crc p)
  | 3 => mkProm (reserved p) (sens p) (off p) w (tco p) (tref p) (tempsens p) (crc p)
  | 4 => mkProm (reserved p) (sens p) (off p) (tcs p) w (tref p) (tempsens p) (crc p)
  | 5 => mkProm (reserved p) (sens p) (off p) (tcs p) (tco p) w (tempsens p) (crc p)
  | 6 => mkProm (reserved p) (sens p) (off p) (tcs p) (tco p) (tref p) w (crc p)
  | 7 => mkProm (reserved p) (sens p) (off p) (tcs p) (tco p) (tref p) (tempsens p) w
  | _ => p
  end.

(** The two bytes of a [uint16_t] in memory order, and back. *)
Definition bytes_of_word (w : Z) : list Z := [Z.land w 255; Z.shiftr w 8].

Definition word_of_bytes (bs : list Z) : Z :=
  Z.lor (nth 0 bs 0) (Z.shiftl (nth 1 bs 0) 8).

(** ** The driver operations *)

Definition enableCS_MS5611 (CS_GPIOport CS_GPIOpin : Z) : HAL unit :=
  HAL_GPIO_WritePin CS_GPIOport CS_GPIOpin GPIO_PIN_RESET.

Definition disableCS_MS5611 (CS_GPIOport CS_GPIOpin : Z) : HAL unit :=
  HAL_GPIO_WritePin CS_GPIOport CS_GPIOpin GPIO_PIN_SET.

(** First loop of [MS5611PromRead], over the values [address] takes.  The
    boolean is [false] when the loop was left by [return MS5611_HAL_ERROR]. *)
Fixpoint prom_read_words (h : MS5611_HW_InitTypeDef) (addresses : list Z)
  (prom : promData) : HAL (bool * promData) :=
  match addresses with
  | [] => ret (true, prom)
  | address :: rest =>
      let SPITransmitData := u8 (PROM_READ address) in
      enableCS_MS5611 (CS_GPIOport h) (CS_GPIOpin h) ;;;
      st <- HAL_SPI_Transmit (SPIhandler h) [SPITransmitData] 1 10 ;;
      if negb (is_OK st) then
        disableCS_MS5611 (CS_GPIOport h) (CS_GPIOpin h) ;;;
        ret (false, prom)
      else
        r <- HAL_SPI_Receive (SPIhandler h) (bytes_of_word (load16 prom address)) 2 10 ;;
        let prom' := store16 prom address (word_of_bytes (snd r)) in
        if negb (is_OK (fst r)) then
          disableCS_MS5611 (CS_GPIOport h) (CS_GPIOpin h) ;;;
          ret (false, prom')
        else
          disableCS_MS5611 (CS_GPIOport h) (CS_GPIOpin h) ;;;
          prom_read_words h rest prom'
  end.

(** Body of the second loop: exchange [toSwap[0]] and [toSwap[1]]. *)
Definition swap_word (w : Z) : Z :=
  let toSwap := bytes_of_word w in
  let secondByte := nth 0 toSwap 0 in
  word_of_bytes [nth 1 toSwap 0; secondByte].

Fixpoint prom_swap_words (addresses : list Z) (prom : promData) : promData :=
  match addresses with
  | [] => prom
  | address :: rest =>
      prom_swap_words rest (store16 prom address (swap_word (load16 prom address)))
  end.

(** The values of [address] in [for (address = 0; address < 8; address++)]. *)
Definition prom_addresses : list Z := [0; 1; 2; 3; 4; 5; 6; 7].

(** [prom] is [*prom] on entry; the second component is [*prom] on return. *)
Definition MS5611PromRead (h : MS5611_HW_InitTypeDef) (prom : promData)
  : HAL (MS5611StateTypeDef * promData) :=
  r <- prom_read_words h prom_addresses prom ;;
  if fst r then ret (MS5611_STATE_READY, prom_swap_words prom_addresses (snd r))
  else ret (MS5611_HAL_ERROR, snd r).

(** [promData_g] is the file-scope [promData] on entry; the second component
    is its value on return.  The value [MS5611PromRead] returns is dropped,
    as in the source. *)
Definition MS5611_Init (h : MS5611_HW_InitTypeDef) (promData_g : promData)
  : HAL (MS5611StateTypeDef * promData) :=
  enableCS_MS5611 (CS_GPIOport h) (CS_GPIOpin h) ;;;
  let SPITransmitData := RESET_COMMAND in
  st <- HAL_SPI_Transmit (SPIhandler h) [SPITransmitData] 1 10 ;;
  if negb (is_OK st) then
    disableCS_MS5611 (CS_GPIOport h) (CS_GPIOpin h) ;;;
    ret (MS5611_HAL_ERROR, promData_g)
  else
    HAL_Delay 3 ;;;
    disableCS_MS5611 (CS_GPIOport h) (CS_GPIOpin h) ;;;
    r <- MS5611PromRead h promData_g ;;
    let promData_g' := snd r in
    if (off promData_g' =? 0x00) || (tref promData_g' =? 0xff) then
      ret (MS5611_STATE_FAILED, promData_g')
    else
      ret (MS5611_STATE_READY, promData_g').

Definition MS5611_Pressure_Conversion (h : MS5611_HW_InitTypeDef)
  (MS5611_Press_OSR : Z) : HAL MS5611StateTypeDef :=
  enableCS_MS5611 (CS_GPIOport h) (CS_GPIOpin h) ;;;
  let SPITransmitData := u8 (Z.lor CONVERT_D1_COMMAND MS5611_Press_OSR) in
  st <- HAL_SPI_Transmit (SPIhandler h) [SPITransmitData] 1 10 ;;
  if negb (is_OK st) then
    disableCS_MS5611 (CS_GPIOport h) (CS_GPIOpin h) ;;;
    ret MS5611_HAL_ERROR
  else
    disableCS_MS5611 (CS_GPIOport h) (CS_GPIOpin h) ;;;
    ret MS5611_STATE_BUSY.

Definition MS5611_Temperature_Conversion (h : MS5611_HW_InitTypeDef)
  (MS5611_Temp_OSR : Z) : HAL MS5611StateTypeDef :=
  enableCS_MS5611 (CS_GPIOport h) (CS_GPIOpin h) ;;;
  let SPITransmitData := u8 (Z.lor CONVERT_D2_COMMAND MS5611_Temp_OSR) in
  st <- HAL_SPI_Transmit (SPIhandler h) [SPITransmitData] 1 10 ;;
  if negb (is_OK st) then
    disableCS_MS5611 (CS_GPIOport h) (CS_GPIOpin h) ;;;
    ret MS5611_HAL_ERROR
  else
    disableCS_MS5611 (CS_GPIOport h) (CS_GPIOpin h) ;;;
    ret MS5611_STATE_BUSY.

(** [reply] is an uninitialised local array; its bytes before the receive
    are modelled as zero.  [raw_data] is [*raw_data] on entry; the second
    component is [*raw_data] on return. *)
Definition MS5611_ADC_Read (h : MS5611_HW_InitTypeDef) (raw_data : Z)
  : HAL (MS5611StateTypeDef * Z) :=
  let reply := [0; 0; 0] in
  enableCS_MS5611 (CS_GPIOport h) (CS_GPIOpin h) ;;;
  let SPITransmitData := READ_ADC_COMMAND in
  st <- HAL_SPI_Transmit (SPIhandler h) [SPITransmitData] 1 10 ;;
  if negb (is_OK st) then
    disableCS_MS5611 (CS_GPIOport h) (CS_GPIOpin h) ;;;
    ret (MS5611_HAL_ERROR, raw_data)
  else
    r <- HAL_SPI_Receive (SPIhandler h) reply 3 10 ;;
    let reply := snd r in
    if negb (is_OK (fst r)) then
      disableCS_MS5611 (CS_GPIOport h) (CS_GPIOpin h) ;;;
      ret (MS5611_HAL_ERROR, raw_data)
    else
      disableCS_MS5611 (CS_GPIOport h) (CS_GPIOpin h) ;;;
      let raw_data' :=
        Z.lor (Z.lor (u32 (Z.shiftl (nth 0 reply 0) 16))
                     (u32 (Z.shiftl (nth 1 reply 0) 8)))
              (nth 2 reply 0) in
      ret (MS5611_STATE_READY, raw_data').

(** ** Observations on the calls an operation made *)

(** The chip-select line of [h] along a list of calls, starting from
    [selected].  [None] when the line is asserted while asserted, released
    while released, or a transfer is made while it is released. *)
Fixpoint cs_run (h : MS5611_HW_InitTypeDef) (selected : bool) (evs : list event)
  : option bool :=
  match evs with
  | [] => Some selected
  | WritePin port pin s :: evs' =>
      if (port =? CS_GPIOport h) && (pin =? CS_GPIOpin h) then
        match s, selected with
        | GPIO_PIN_RESET, false => cs_run h true evs'
        | GPIO_PIN_SET, true => cs_run h false evs'
        | _, _ => None
        end
      else cs_run h selected evs'
  | Transmit _ _ _ _ :: evs' | Receive _ _ _ :: evs' =>
      if selected then cs_run h selected evs' else None
  | Delay _ :: evs' => cs_run h selected evs'
  end.

(** Every assertion is followed by exactly one release, transfers happen
    in between, and the line is released at the end. *)
Definition cs_framed (h : MS5611_HW_InitTypeDef) (evs : list event) : Prop :=
  cs_run h false evs = Some false.

Definition is_transfer (e : event) : bool :=
  match e with
  | Transmit _ _ _ _ | Receive _ _ _ => true
  | _ => false
  end.

(** Some transfer among [evs], made after [hist], did not answer [HAL_OK]. *)
Fixpoint any_failure (env : oracle) (hist evs : list event) : bool :=
  match evs with
  | [] => false
  | e :: evs' =>
      (is_transfer e && negb (is_OK (status (env (hist ++ [e])))))
      || any_failure env (hist ++ [e]) evs'
  end.

(** A transfer carries the timeout 10; other calls carry none. *)
Definition timeout10 (e : event) : bool :=
  match e with
  | Transmit _ _ _ t | Receive _ _ t => t =? 10
  | _ => true
  end.

(** Two handler values that agree on everything but [SPI_Timeout]. *)
Definition same_wiring (h1 h2 : MS5611_HW_InitTypeDef) : Prop :=
  SPIhandler h1 = SPIhandler h2 /\
  CS_GPIOport h1 = CS_GPIOport h2 /\
  CS_GPIOpin h1 = CS_GPIOpin h2.

(** The calls of one calibration-word transaction. *)
Definition prom_transaction (h : MS5611_HW_InitTypeDef) (i : Z) : list event :=
  [ WritePin (CS_GPIOport h) (CS_GPIOpin h) GPIO_PIN_RESET;
    Transmit (SPIhandler h) [Z.lor 0xA0 (Z.shiftl i 1)] 1 10;
    Receive (SPIhandler h) 2 10;
    WritePin (CS_GPIOport h) (CS_GPIOpin h) GPIO_PIN_SET ].

(** The calls of the reset transaction that opens [MS5611_Init]. *)
Definition reset_transaction (h : MS5611_HW_InitTypeDef) : list event :=
  [ WritePin (CS_GPIOport h) (CS_GPIOpin h) GPIO_PIN_RESET;
    Transmit (SPIhandler h) [0x1E] 1 10;
    Delay 3;
    WritePin (CS_GPIOport h) (CS_GPIOpin h) GPIO_PIN_SET ].

(** What the first loop makes of [*prom] when every transfer succeeds: each
    word in turn receives the two bytes of its transaction, first byte at
    the lower address. *)
Fixpoint captured_words (h : MS5611_HW_InitTypeDef) (env : oracle)
  (hist : list event) (addresses : list Z) (prom : promData) : promData :=
  match addresses with
  | [] => prom
  | a :: rest =>
      let e1 := WritePin (CS_GPIOport h) (CS_GPIOpin h) GPIO_PIN_RESET in
      let e2 := Transmit (SPIhandler h) [u8 (PROM_READ a)] 1 10 in
      let e3 := Receive (SPIhandler h) 2 10 in
      let e4 := WritePin (CS_GPIOport h) (CS_GPIOpin h) GPIO_PIN_SET in
      let bs := fill (bytes_of_word (load16 prom a)) (rx (env (hist ++ [e1; e2; e3]))) in
      captured_words h env (hist ++ [e1; e2; e3; e4]) rest
        (store16 prom a (word_of_bytes bs))
  end.

Definition is_byte (b : Z) : Prop := 0 <= b < 256.

(** The history at the moment the receive of calibration word [i] is
    answered, when [MS5611PromRead] was entered after [hist] and the
    transactions of the words before [i] ran to their end. *)
Definition hist_at_receive (h : MS5611_HW_InitTypeDef) (hist : list event) (i : Z)
  : list event :=
  hist ++ flat_map (prom_transaction h) (firstn (Z.to_nat i) prom_addresses)
       ++ firstn 3 (prom_transaction h i).

(** The calls [evs], made after [hist], make no call after the first
    failed transfer other than one release of the select line of [h]. *)
Fixpoint stops_at_failure (h : MS5611_HW_InitTypeDef) (env : oracle)
  (hist evs : list event) : bool :=
  match evs with
  | [] => true
  | e :: evs' =>
      if is_transfer e && negb (is_OK (status (env (hist ++ [e])))) then
        match evs' with
        | [WritePin port pin GPIO_PIN_SET] =>
            (port =? CS_GPIOport h) && (pin =? CS_GPIOpin h)
        | _ => false
        end
      else stops_at_failure h env (hist ++ [e]) evs'
  end.


(** The calls of one transaction as the first loop makes them. *)
Definition loop_transaction (h : MS5611_HW_InitTypeDef) (a : Z) : list event :=
  [ WritePin (CS_GPIOport h) (CS_GPIOpin h) GPIO_PIN_RESET;
    Transmit (SPIhandler h) [u8 (PROM_READ a)] 1 10;
    Receive (SPIhandler h) 2 10;
    WritePin (CS_GPIOport h) (CS_GPIOpin h) GPIO_PIN_SET ].

(** ** Sample environments and inputs *)

(** Every transfer succeeds and every receive delivers the bytes [bs]. *)
Definition env_const (bs : list Z) : oracle := fun _ => mkResp HAL_OK bs.

(** As [env_const], but the [n]-th call of the history times out. *)
Definition env_fail_at (n : nat) (bs : list Z) : oracle :=
  fun hist =>
    if Nat.eqb (length hist) n then mkResp HAL_TIMEOUT [] else mkResp HAL_OK bs.

Definition hw0 : MS5611_HW_InitTypeDef := mkHW 1 2 3 10.
Definition prom0 : promData := mkProm 0 0 0 0 0 0 0 0.

(** * Properties *)

(** ** Fixed-width integers *)

Lemma wraps_id w z : 0 < w -> - 2 ^ (w - 1) <= z < 2 ^ (w - 1) -> wraps w z = z.
Proof.
  intros Hw Hz. unfold wraps.
  assert (E : 2 ^ w = 2 * 2 ^ (w - 1)).
  { replace w with (Z.succ (w - 1)) at 1 by lia. apply Z.pow_succ_r. lia. }
  rewrite Z.mod_small; lia.
Qed.

Lemma s32_id z : in_s32 z -> s32 z = z.
Proof. intros H. apply wraps_id; [lia | exact H]. Qed.

Lemma s64_id z : in_s64 z -> s64 z = z.
Proof. intros H. apply wraps_id; [lia | exact H]. Qed.

Lemma wraps_range w z : 0 < w -> - 2 ^ (w - 1) <= wraps w z < 2 ^ (w - 1).
Proof.
  intros Hw. unfold wraps.
  assert (E : 2 ^ w = 2 * 2 ^ (w - 1)).
  { replace w with (Z.succ (w - 1)) at 1 by lia. apply Z.pow_succ_r. lia. }
  assert (0 < 2 ^ (w - 1)) by (apply Z.pow_pos_nonneg; lia).
  pose proof (Z.mod_pos_bound (z + 2 ^ (w - 1)) (2 ^ w) ltac:(lia)). lia.
Qed.

Lemma s32_range z : in_s32 (s32 z).
Proof. apply (wraps_range 32). lia. Qed.

Lemma s64_range z : in_s64 (s64 z).
Proof. apply (wraps_range 64). lia. Qed.

Lemma u8_range z : 0 <= u8 z < 256.
Proof. unfold u8, wrapu. apply Z.mod_pos_bound. lia. Qed.

Lemma u8_id z : 0 <= z < 256 -> u8 z = z.
Proof. intros H. unfold u8, wrapu. apply Z.mod_small. exact H. Qed.

(** ** Compensation *)

(** The worked example of the sensor's datasheet, intermediate values
    included: D1 = 9085466, D2 = 8569150 give dT = 2366, TEMP = 2007,
    OFF = 2420281617, SENS = 1315097036, P = 100009. *)
Example datasheet_example_locals :
  let l := Data_Convert_locals example_prom (mkRaw 9085466 8569150) in
  dT l = 2366 /\ TEMP l = 2007 /\ OFF l = 2420281617 /\ SENS l = 1315097036 /\
  low_branch l = false.
Proof. vm_compute. repeat split. Qed.

(** C1, as stated, fails: at the raw sample (6465444, 8077636) with the
    example calibration words the compensated temperature is not 2007 and
    the pressure is more than 50000 units away from the datasheet's 100009. *)
Lemma C1_sample_not_datasheet :
  let v := MS5611_Data_Convert example_prom (mkRaw 6465444 8077636) in
  temperature v <> 2007 /\ 50000 < Z.abs (pressure v - 100009).
Proof. vm_compute. split; [discriminate | reflexivity]. Qed.

(** C1, amended: with the example calibration words, the datasheet's raw
    sample (pressure 9085466, temperature 8569150) is converted to exactly
    the datasheet's temperature 2007 and pressure 100009; the raw sample
    (6465444, 8077636) is converted to temperature 238 and pressure 48272. *)
Theorem C1_datasheet_example :
  MS5611_Data_Convert example_prom (mkRaw 9085466 8569150) = mkConv 100009 2007 /\
  MS5611_Data_Convert example_prom (mkRaw 6465444 8077636) = mkConv 48272 238.
Proof. split; vm_compute; reflexivity. Qed.

(** With raw temperature 0 and reference temperature 0, [dT] is 0 whatever
    the coefficients are. *)
Lemma dT_zero prom p :
  tref prom = 0 -> dT (Data_Convert_locals prom (mkRaw p 0)) = 0.
Proof.
  intros H. unfold Data_Convert_locals. cbn [raw_temperature]. rewrite H.
  change (s32 (u32 (0 - s32 (Z.shiftl 0 8)))) with 0.
  rewrite Z.mul_0_l.
  change (s32 (s64 (2000 + Z.shiftr (s64 0) 23)) <? 2000) with false.
  reflexivity.
Qed.

(** C7: for a calibration table with reference temperature 0 and all
    coefficients 0, and raw temperature 0 (any raw pressure), TEMP is
    exactly 2000, neither correction branch is entered, and the
    temperature returned is 2000. *)
Theorem C7_zero_table_boundary (prom : promData) (p : Z) :
  tref prom = 0 -> sens prom = 0 -> off prom = 0 -> tcs prom = 0 ->
  tco prom = 0 -> tempsens prom = 0 ->
  let l := Data_Convert_locals prom (mkRaw p 0) in
  TEMP1 l = 2000 /\ (TEMP1 l <? 2000) = false /\
  low_branch l = false /\ cold_branch l = false /\
  temperature (MS5611_Data_Convert prom (mkRaw p 0)) = 2000.
Proof.
  intros Ht Hs Ho Hcs Hco Hts.
  unfold MS5611_Data_Convert, Data_Convert_locals.
  cbn [raw_temperature raw_pressure temperature].
  rewrite Ht, Hs, Ho, Hcs, Hco, Hts.
  change (s32 (u32 (0 - s32 (Z.shiftl 0 8)))) with 0.
  change (s32 (s64 (2000 + Z.shiftr (s64 (0 * 0)) 23))) with 2000.
  change (2000 <? 2000) with false. cbn iota.
  cbn [TEMP1 low_branch cold_branch TEMP]. repeat split.
Qed.

Lemma C7_zero_table_boundary_witness :
  let l := Data_Convert_locals prom0 (mkRaw 123456 0) in
  TEMP1 l = 2000 /\ (TEMP1 l <? 2000) = false /\
  low_branch l = false /\ cold_branch l = false /\
  temperature (MS5611_Data_Convert prom0 (mkRaw 123456 0)) = 2000.
Proof. apply (C7_zero_table_boundary prom0 123456); reflexivity. Defined.

(** Where the square of [TEMP + 1500] fits [int32_t], the very-cold branch
    adds exactly 7 x (TEMP+1500)^2 to [OFF2] and the floor of
    11 x (TEMP+1500)^2 / 2 to [SENS2]. *)
Lemma cold_correction_in_range (prom : promData) (sample : MS5611_Raw_Data_TypeDef) :
  let l := Data_Convert_locals prom sample in
  TEMP1 l < -1500 ->
  (TEMP1 l + 1500) ^ 2 < 2 ^ 31 ->
  cold_branch l = true /\
  OFF2 l = OFF2_low l + 7 * (TEMP1 l + 1500) ^ 2 /\
  SENS2 l = SENS2_low l + Z.shiftr (11 * (TEMP1 l + 1500) ^ 2) 1.
Proof.
  unfold Data_Convert_locals.
  set (d := s32 (u32 (raw_temperature sample - s32 (Z.shiftl (tref prom) 8)))).
  set (T := s32 (s64 (2000 + Z.shiftr (s64 (d * tempsens prom)) 23))).
  set (M := s32 (T - 2000)).
  set (q := s64 (s64 (5 * M) * M)).
  assert (HT : in_s32 T) by apply s32_range.
  assert (Hq : in_s64 q) by apply s64_range.
  unfold in_s32 in HT. unfold in_s64 in Hq.
  clearbody q. clearbody T.
  destruct (T <? 2000) eqn:E1; [| cbn; intros; apply Z.ltb_ge in E1; lia].
  destruct (T <? -1500) eqn:E2; [| cbn; intros; apply Z.ltb_ge in E2; lia].
  cbn [TEMP1 cold_branch OFF2 OFF2_low SENS2 SENS2_low].
  intros Hlt Hsq.
  assert (Hp : s32 (T + 1500) = T + 1500) by (apply s32_id; unfold in_s32; lia).
  rewrite Hp.
  assert (Hnn : 0 <= (T + 1500) ^ 2) by (apply Z.pow_even_nonneg; exists 1; reflexivity).
  rewrite <- (Z.pow_2_r (T + 1500)).
  assert (Hs : s32 ((T + 1500) ^ 2) = (T + 1500) ^ 2)
    by (apply s32_id; unfold in_s32; lia).
  rewrite Hs.
  assert (H1 : - 2 ^ 62 <= Z.shiftr q 1 < 2 ^ 62).
  { rewrite Z.shiftr_div_pow2 by lia. change (2 ^ 1) with 2.
    pose proof (Z.div_mod q 2 ltac:(lia)). pose proof (Z.mod_pos_bound q 2 ltac:(lia)). lia. }
  assert (H2 : - 2 ^ 62 <= Z.shiftr q 2 < 2 ^ 62).
  { rewrite Z.shiftr_div_pow2 by lia. change (2 ^ 2) with 4.
    pose proof (Z.div_mod q 4 ltac:(lia)). pose proof (Z.mod_pos_bound q 4 ltac:(lia)). lia. }
  assert (H3 : 0 <= Z.shiftr (11 * (T + 1500) ^ 2) 1 < 2 ^ 62).
  { rewrite Z.shiftr_div_pow2 by lia. change (2 ^ 1) with 2.
    pose proof (Z.div_mod (11 * (T + 1500) ^ 2) 2 ltac:(lia)).
    pose proof (Z.mod_pos_bound (11 * (T + 1500) ^ 2) 2 ltac:(lia)). lia. }
  rewrite (s64_id (7 * (T + 1500) ^ 2)) by (unfold in_s64; lia).
  rewrite (s64_id (11 * (T + 1500) ^ 2)) by (unfold in_s64; lia).
  rewrite !s64_id by (unfold in_s64; lia).
  repeat split.
Qed.

(** C3 fails on the code at 16-bit calibration words and a 24-bit raw
    sample: with reference temperature 60000, temperature coefficient 60000
    and raw temperature 0, TEMP is -107864, the [int32_t] product
    [TEMPP * TEMPP] leaves the [int32_t] range, and the amounts added to
    [OFF2] and [SENS2] are not 7 x (TEMP+1500)^2 and 11 x (TEMP+1500)^2 / 2. *)
Theorem C3_cold_square_overflows :
  let prom := mkProm 0 40127 36924 23317 23282 60000 60000 0 in
  let sample := mkRaw 0 0 in
  let l := Data_Convert_locals prom sample in
  prom_wf prom /\ raw24 sample /\
  TEMP1 l = -107864 /\ cold_branch l = true /\
  (TEMP1 l + 1500) ^ 2 = 11313300496 /\
  TEMPP2 l = -1571601392 /\
  OFF2 l - OFF2_low l = 7 * -1571601392 /\
  OFF2 l <> OFF2_low l + 7 * (TEMP1 l + 1500) ^ 2 /\
  SENS2 l <> SENS2_low l + Z.shiftr (11 * (TEMP1 l + 1500) ^ 2) 1.
Proof.
  vm_compute. repeat split; intros; discriminate.
Qed.

(** ** Protocol: the single-transaction operations *)

Ltac hal_unfold :=
  unfold bind, ret, enableCS_MS5611, disableCS_MS5611, HAL_GPIO_WritePin,
    HAL_SPI_Transmit, HAL_SPI_Receive, HAL_Delay; cbn [fst snd app].

Ltac hal_cbn :=
  cbn [fst snd app negb is_OK andb orb is_transfer any_failure cs_run
       forallb timeout10];
  rewrite ?Z.eqb_refl;
  cbn [fst snd app negb is_OK andb orb is_transfer any_failure cs_run
       forallb timeout10].

Ltac case_status E :=
  match goal with
  | |- context [status (?env ?t)] => destruct (status (env t)) eqn:E
  end.

Lemma cs_run_app h s evs1 evs2 :
  cs_run h s (evs1 ++ evs2) =
  match cs_run h s evs1 with
  | Some s' => cs_run h s' evs2
  | None => None
  end.
Proof.
  revert s. induction evs1 as [| e evs1 IH]; intros s; [reflexivity |].
  destruct e as [port pin st | | |]; cbn [app cs_run].
  - destruct ((port =? CS_GPIOport h) && (pin =? CS_GPIOpin h)); [| apply IH].
    destruct st, s; try reflexivity; apply IH.
  - destruct s; [apply IH | reflexivity].
  - destruct s; [apply IH | reflexivity].
  - apply IH.
Qed.

Lemma any_failure_app env hist evs1 evs2 :
  any_failure env hist (evs1 ++ evs2) =
  any_failure env hist evs1 || any_failure env (hist ++ evs1) evs2.
Proof.
  revert hist. induction evs1 as [| e evs1 IH]; intros hist.
  - cbn. rewrite app_nil_r. reflexivity.
  - cbn [app any_failure]. rewrite IH, <- app_assoc, orb_assoc. reflexivity.
Qed.

Lemma Pressure_Conversion_framed h osr env hist :
  cs_framed h (snd (MS5611_Pressure_Conversion h osr env hist)).
Proof.
  unfold cs_framed, MS5611_Pressure_Conversion. hal_unfold.
  case_status E; hal_cbn; reflexivity.
Qed.

Lemma Temperature_Conversion_framed h osr env hist :
  cs_framed h (snd (MS5611_Temperature_Conversion h osr env hist)).
Proof.
  unfold cs_framed, MS5611_Temperature_Conversion. hal_unfold.
  case_status E; hal_cbn; reflexivity.
Qed.

Lemma ADC_Read_framed h raw env hist :
  cs_framed h (snd (MS5611_ADC_Read h raw env hist)).
Proof.
  unfold cs_framed, MS5611_ADC_Read. hal_unfold.
  case_status E; hal_cbn; try reflexivity.
  case_status E'; hal_cbn; reflexivity.
Qed.

(** A failed transfer is the only way to the bus-error outcome, and leads
    to it. *)
Lemma Pressure_Conversion_error_iff h osr env hist :
  let r := MS5611_Pressure_Conversion h osr env hist in
  any_failure env hist (snd r) = true <-> fst r = MS5611_HAL_ERROR.
Proof.
  unfold MS5611_Pressure_Conversion. hal_unfold.
  case_status E; hal_cbn; rewrite ?E; hal_cbn; split; congruence.
Qed.

Lemma Temperature_Conversion_error_iff h osr env hist :
  let r := MS5611_Temperature_Conversion h osr env hist in
  any_failure env hist (snd r) = true <-> fst r = MS5611_HAL_ERROR.
Proof.
  unfold MS5611_Temperature_Conversion. hal_unfold.
  case_status E; hal_cbn; rewrite ?E; hal_cbn; split; congruence.
Qed.

Lemma ADC_Read_error_iff h raw env hist :
  let r := MS5611_ADC_Read h raw env hist in
  any_failure env hist (snd r) = true <-> fst (fst r) = MS5611_HAL_ERROR.
Proof.
  unfold MS5611_ADC_Read. hal_unfold.
  case_status E; hal_cbn; rewrite ?E; hal_cbn; try (split; congruence).
  case_status E'; hal_cbn; rewrite ?E, ?E'; hal_cbn; split; congruence.
Qed.

(** ** Protocol: the calibration read *)

(** One turn of the first loop of [MS5611PromRead]. *)
Lemma prom_read_words_cons h a rest p env hist :
  prom_read_words h (a :: rest) p env hist =
  let e1 := WritePin (CS_GPIOport h) (CS_GPIOpin h) GPIO_PIN_RESET in
  let e2 := Transmit (SPIhandler h) [u8 (PROM_READ a)] 1 10 in
  let e3 := Receive (SPIhandler h) 2 10 in
  let e4 := WritePin (CS_GPIOport h) (CS_GPIOpin h) GPIO_PIN_SET in
  if is_OK (status (env (hist ++ [e1; e2]))) then
    let r := env (hist ++ [e1; e2; e3]) in
    let p' := store16 p a (word_of_bytes (fill (bytes_of_word (load16 p a)) (rx r))) in
    if is_OK (status r) then
      let rr := prom_read_words h rest p' env (hist ++ [e1; e2; e3; e4]) in
      (fst rr, e1 :: e2 :: e3 :: e4 :: snd rr)
    else ((false, p'), [e1; e2; e3; e4])
  else ((false, p), [e1; e2; e4]).
Proof.
  cbn [prom_read_words]. hal_unfold. rewrite <- !app_assoc. cbn [app].
  destruct (is_OK (status (env (hist ++ [_; _])))); cbn [negb fst snd app];
    [| reflexivity].
  rewrite <- !app_assoc. cbn [app].
  destruct (is_OK (status (env (hist ++ [_; _; _])))); cbn [negb fst snd app];
    [| reflexivity].
  rewrite <- !app_assoc. reflexivity.
Qed.

Lemma prom_read_words_framed h addrs : forall p env hist,
  cs_run h false (snd (prom_read_words h addrs p env hist)) = Some false.
Proof.
  induction addrs as [| a rest IH]; intros p env hist; [reflexivity |].
  rewrite prom_read_words_cons. cbv zeta.
  destruct (is_OK _); [| hal_cbn; reflexivity].
  destruct (is_OK _); [| hal_cbn; reflexivity].
  hal_cbn. apply IH.
Qed.

Lemma prom_read_words_timeout10 h addrs : forall p env hist,
  forallb timeout10 (snd (prom_read_words h addrs p env hist)) = true.
Proof.
  induction addrs as [| a rest IH]; intros p env hist; [reflexivity |].
  rewrite prom_read_words_cons. cbv zeta.
  destruct (is_OK _); [| reflexivity].
  destruct (is_OK _); [| reflexivity].
  hal_cbn. apply IH.
Qed.

(** The first loop is left early exactly when a transfer failed. *)
Lemma prom_read_words_error_iff h addrs : forall p env hist,
  let r := prom_read_words h addrs p env hist in
  any_failure env hist (snd r) = true <-> fst (fst r) = false.
Proof.
  induction addrs as [| a rest IH]; intros p env hist; [cbn; split; congruence |].
  cbv zeta. rewrite prom_read_words_cons. cbv zeta.
  destruct (is_OK (status (env (hist ++ [_; _])))) eqn:E2.
  - destruct (is_OK (status (env (hist ++ [_; _; _])))) eqn:E3.
    + hal_cbn. rewrite <- !app_assoc. cbn [app]. rewrite E2, E3. hal_cbn.
      apply IH.
    + hal_cbn. rewrite <- !app_assoc. cbn [app]. rewrite E2, E3. hal_cbn.
      split; reflexivity.
  - hal_cbn. rewrite <- !app_assoc. cbn [app]. rewrite E2. hal_cbn.
    split; reflexivity.
Qed.

Lemma prom_read_words_success h addrs : forall p env hist,
  fst (fst (prom_read_words h addrs p env hist)) = true ->
  snd (prom_read_words h addrs p env hist) =
    flat_map (fun a =>
      [ WritePin (CS_GPIOport h) (CS_GPIOpin h) GPIO_PIN_RESET;
        Transmit (SPIhandler h) [u8 (PROM_READ a)] 1 10;
        Receive (SPIhandler h) 2 10;
        WritePin (CS_GPIOport h) (CS_GPIOpin h) GPIO_PIN_SET ]) addrs /\
  snd (fst (prom_read_words h addrs p env hist)) =
    captured_words h env hist addrs p.
Proof.
  induction addrs as [| a rest IH]; intros p env hist; [split; reflexivity |].
  rewrite prom_read_words_cons. cbv zeta.
  destruct (is_OK _); [| discriminate].
  destruct (is_OK _); [| discriminate].
  cbn [fst snd flat_map app captured_words]. intros H.
  destruct (IH _ _ _ H) as [Hev Hp]. rewrite Hev, Hp. split; reflexivity.
Qed.

Lemma PromRead_framed h p env hist :
  cs_framed h (snd (MS5611PromRead h p env hist)).
Proof.
  unfold cs_framed, MS5611PromRead. hal_unfold.
  destruct (fst (fst (prom_read_words _ _ _ _ _))); cbn [snd]; rewrite app_nil_r;
    apply prom_read_words_framed.
Qed.

Lemma PromRead_timeout10 h p env hist :
  forallb timeout10 (snd (MS5611PromRead h p env hist)) = true.
Proof.
  unfold MS5611PromRead. hal_unfold.
  destruct (fst (fst (prom_read_words _ _ _ _ _))); cbn [snd]; rewrite app_nil_r;
    apply prom_read_words_timeout10.
Qed.

Lemma PromRead_error_iff h p env hist :
  let r := MS5611PromRead h p env hist in
  any_failure env hist (snd r) = true <-> fst (fst r) = MS5611_HAL_ERROR.
Proof.
  cbv zeta. unfold MS5611PromRead. hal_unfold.
  pose proof (prom_read_words_error_iff h prom_addresses p env hist) as H.
  cbv zeta in H.
  destruct (fst (fst (prom_read_words _ _ _ _ _))); cbn [fst snd]; rewrite app_nil_r, H;
    split; congruence.
Qed.

(** [MS5611PromRead] returns one of two values. *)
Lemma PromRead_status h p env hist :
  let s := fst (fst (MS5611PromRead h p env hist)) in
  s = MS5611_STATE_READY \/ s = MS5611_HAL_ERROR.
Proof.
  cbv zeta. unfold MS5611PromRead. hal_unfold.
  destruct (fst (fst (prom_read_words _ _ _ _ _))); [left | right]; reflexivity.
Qed.

(** ** Protocol: initialisation *)

(** [MS5611_Init] in one equation: the reset transaction, then the
    calibration read, whose status plays no part in the result. *)
Lemma Init_unfold h p env hist :
  MS5611_Init h p env hist =
  let cs := WritePin (CS_GPIOport h) (CS_GPIOpin h) in
  let tx := Transmit (SPIhandler h) [RESET_COMMAND] 1 10 in
  if is_OK (status (env (hist ++ [cs GPIO_PIN_RESET; tx]))) then
    let r := MS5611PromRead h p env (hist ++ reset_transaction h) in
    let t := snd (fst r) in
    ((if (off t =? 0) || (tref t =? 255)
      then MS5611_STATE_FAILED else MS5611_STATE_READY, t),
     reset_transaction h ++ snd r)
  else ((MS5611_HAL_ERROR, p), [cs GPIO_PIN_RESET; tx; cs GPIO_PIN_SET]).
Proof.
  unfold MS5611_Init. hal_unfold. rewrite <- !app_assoc. cbn [app].
  destruct (is_OK (status (env (hist ++ [_; _])))); cbn [negb fst snd app];
    [| reflexivity].
  rewrite <- !app_assoc. cbn [app]. unfold reset_transaction.
  change RESET_COMMAND with 30.
  destruct ((off _ =? 0) || (tref _ =? 255)); cbn [fst snd app];
    rewrite app_nil_r; reflexivity.
Qed.

Lemma Init_framed h p env hist :
  cs_framed h (snd (MS5611_Init h p env hist)).
Proof.
  unfold cs_framed. rewrite Init_unfold. cbv zeta.
  destruct (is_OK _); [| hal_cbn; reflexivity].
  cbn [snd]. rewrite cs_run_app. unfold reset_transaction. hal_cbn.
  apply PromRead_framed.
Qed.

Lemma Init_timeout10 h p env hist :
  forallb timeout10 (snd (MS5611_Init h p env hist)) = true.
Proof.
  rewrite Init_unfold. cbv zeta.
  destruct (is_OK _); [| reflexivity].
  cbn [snd]. rewrite forallb_app, PromRead_timeout10. reflexivity.
Qed.

(** The validity check: [MS5611_STATE_READY] is returned only with a table
    whose [off] is not 0 and whose [tref] is not 0xff. *)
Lemma Init_ready_table h p env hist :
  let r := MS5611_Init h p env hist in
  fst (fst r) = MS5611_STATE_READY ->
  off (snd (fst r)) <> 0 /\ tref (snd (fst r)) <> 255.
Proof.
  cbv zeta. rewrite Init_unfold. cbv zeta.
  destruct (is_OK _); [| discriminate].
  cbn [fst snd].
  destruct (off _ =? 0) eqn:E1; [discriminate |].
  destruct (tref _ =? 255) eqn:E2; [discriminate |].
  intros _. apply Z.eqb_neq in E1. apply Z.eqb_neq in E2. auto.
Qed.

(** A table left with [off = 0] is never reported ready. *)
Lemma Init_off_zero_not_ready h p env hist :
  let r := MS5611_Init h p env hist in
  off (snd (fst r)) = 0 -> fst (fst r) <> MS5611_STATE_READY.
Proof.
  cbv zeta. intros H0 Hr. apply Init_ready_table in Hr. tauto.
Qed.

(** ** Bytes and words *)

Lemma fill_length buf : forall written, length (fill buf written) = length buf.
Proof.
  induction buf as [| b buf IH]; intros [| w written]; cbn; auto.
Qed.

Lemma fill_bytes buf : forall written,
  Forall is_byte buf -> Forall is_byte (fill buf written).
Proof.
  induction buf as [| b buf IH]; intros [| w written] H; cbn [fill]; auto.
  inversion H; subst. constructor; [apply u8_range | apply IH; assumption].
Qed.

Lemma nth_is_byte (l : list Z) (n : nat) :
  Forall is_byte l -> is_byte (nth n l 0).
Proof.
  intros H. revert n. induction H as [| b l Hb _ IH]; intros [| n]; cbn;
    try (unfold is_byte; lia); auto.
Qed.

(** [hi << n | lo] is [hi * 2^n + lo] when [lo] has [n] bits. *)
Lemma lor_shiftl_add hi lo n :
  0 <= n -> 0 <= lo < 2 ^ n -> Z.lor (Z.shiftl hi n) lo = hi * 2 ^ n + lo.
Proof.
  intros Hn Hlo.
  assert (Hd : Z.land (Z.shiftl hi n) lo = 0).
  { apply Z.bits_inj'. intros m Hm. rewrite Z.land_spec, Z.bits_0.
    destruct (Z.lt_ge_cases m n) as [Hlt | Hge].
    - rewrite Z.shiftl_spec_low by assumption. reflexivity.
    - rewrite <- (Z.mod_small lo (2 ^ n)) by assumption.
      rewrite Z.mod_pow2_bits_high by lia. apply andb_false_r. }
  rewrite <- Z.lxor_lor by assumption.
  rewrite <- Z.add_nocarry_lxor by assumption.
  rewrite Z.shiftl_mul_pow2 by assumption. reflexivity.
Qed.

(** The two bytes of a word stored low byte first. *)
Lemma bytes_of_word_lor x y :
  is_byte x -> is_byte y -> bytes_of_word (Z.lor x (Z.shiftl y 8)) = [x; y].
Proof.
  unfold is_byte. intros Hx Hy. unfold bytes_of_word.
  rewrite Z.lor_comm, lor_shiftl_add by (change (2 ^ 8) with 256; lia).
  change (2 ^ 8) with 256. change 255 with (Z.ones 8).
  rewrite Z.land_ones, Z.shiftr_div_pow2 by lia. change (2 ^ 8) with 256.
  rewrite Z.add_comm, Z.mod_add, Z.div_add by lia.
  rewrite Z.mod_small, Z.div_small by lia. reflexivity.
Qed.

(** Exchanging the two bytes of a word stored as [x] then [y] gives the word
    whose high byte is [x] and whose low byte is [y]. *)
Lemma swap_word_lor x y :
  is_byte x -> is_byte y ->
  swap_word (Z.lor x (Z.shiftl y 8)) = Z.lor (Z.shiftl x 8) y.
Proof.
  intros Hx Hy. unfold swap_word. rewrite bytes_of_word_lor by assumption.
  unfold word_of_bytes. cbn [nth]. apply Z.lor_comm.
Qed.

(** Exchanging the bytes twice gives the word back. *)
Lemma swap_word_involutive w : 0 <= w < 65536 -> swap_word (swap_word w) = w.
Proof.
  intros Hw.
  assert (Hx : is_byte (w mod 256)) by (apply Z.mod_pos_bound; lia).
  assert (Hy : is_byte (w / 256)).
  { unfold is_byte. split; [apply Z.div_pos; lia |].
    apply Z.div_lt_upper_bound; lia. }
  assert (E : w = Z.lor (w mod 256) (Z.shiftl (w / 256) 8)).
  { unfold is_byte in Hx, Hy.
    rewrite Z.lor_comm, lor_shiftl_add by (change (2 ^ 8) with 256; lia).
    change (2 ^ 8) with 256. pose proof (Z.div_mod w 256 ltac:(lia)). lia. }
  rewrite E at 1. rewrite swap_word_lor by assumption.
  rewrite Z.lor_comm, swap_word_lor by assumption.
  rewrite Z.lor_comm. symmetry. exact E.
Qed.

(** Three bytes assembled most significant first. *)
Lemma be24_value b0 b1 b2 :
  is_byte b0 -> is_byte b1 -> is_byte b2 ->
  Z.lor (Z.lor (u32 (Z.shiftl b0 16)) (u32 (Z.shiftl b1 8))) b2 =
  65536 * b0 + 256 * b1 + b2 /\
  Z.lor (Z.lor (u32 (Z.shiftl b0 16)) (u32 (Z.shiftl b1 8))) b2 =
  Z.lor (Z.lor (Z.shiftl b0 16) (Z.shiftl b1 8)) b2.
Proof.
  unfold is_byte. intros H0 H1 H2.
  assert (E0 : u32 (Z.shiftl b0 16) = Z.shiftl b0 16).
  { unfold u32, wrapu. rewrite Z.shiftl_mul_pow2 by lia.
    apply Z.mod_small. change (2 ^ 16) with 65536. change (2 ^ 32) with 4294967296. lia. }
  assert (E1 : u32 (Z.shiftl b1 8) = Z.shiftl b1 8).
  { unfold u32, wrapu. rewrite Z.shiftl_mul_pow2 by lia.
    apply Z.mod_small. change (2 ^ 8) with 256. change (2 ^ 32) with 4294967296. lia. }
  rewrite E0, E1. split; [| reflexivity].
  replace (Z.shiftl b0 16) with (Z.shiftl (Z.shiftl b0 8) 8)
    by (rewrite Z.shiftl_shiftl by lia; reflexivity).
  rewrite <- Z.shiftl_lor.
  rewrite (lor_shiftl_add b0 b1 8) by (change (2 ^ 8) with 256; lia).
  rewrite lor_shiftl_add by (change (2 ^ 8) with 256; lia).
  change (2 ^ 8) with 256. lia.
Qed.

(** ** Protocol: what the calibration read stores *)

Lemma prom_swap_words_load p i :
  In i prom_addresses ->
  load16 (prom_swap_words prom_addresses p) i = swap_word (load16 p i).
Proof.
  intros Hin. destruct p. cbn [In prom_addresses] in Hin.
  repeat (destruct Hin as [<- | Hin]; [reflexivity |]). contradiction.
Qed.

Ltac norm_hist := repeat (rewrite <- app_assoc; cbn [app]).

Lemma captured_words_load h env hist p i b0 b1 rest :
  In i prom_addresses ->
  rx (env (hist_at_receive h hist i)) = b0 :: b1 :: rest ->
  load16 (captured_words h env hist prom_addresses p) i =
  Z.lor (u8 b0) (Z.shiftl (u8 b1) 8).
Proof.
  intros Hin Hrx. unfold hist_at_receive in Hrx.
  set (res := Z.lor (u8 b0) (Z.shiftl (u8 b1) 8)).
  destruct p. cbn [In prom_addresses] in Hin.
  repeat (destruct Hin as [<- | Hin];
    [ match type of Hrx with
      | context [firstn (Z.to_nat ?k) prom_addresses] =>
          let l := eval vm_compute in (firstn (Z.to_nat k) prom_addresses) in
          change (firstn (Z.to_nat k) prom_addresses) with l in Hrx
      end;
      cbn [firstn flat_map app prom_transaction] in Hrx;
      cbn [captured_words prom_addresses load16 store16
           reserved sens off tcs tco tref tempsens crc];
      norm_hist;
      change (u8 (PROM_READ 0)) with 160; change (u8 (PROM_READ 1)) with 162;
      change (u8 (PROM_READ 2)) with 164; change (u8 (PROM_READ 3)) with 166;
      change (u8 (PROM_READ 4)) with 168; change (u8 (PROM_READ 5)) with 170;
      change (u8 (PROM_READ 6)) with 172; change (u8 (PROM_READ 7)) with 174;
      change (Z.lor 160 (Z.shiftl 0 1)) with 160 in Hrx;
      change (Z.lor 160 (Z.shiftl 1 1)) with 162 in Hrx;
      change (Z.lor 160 (Z.shiftl 2 1)) with 164 in Hrx;
      change (Z.lor 160 (Z.shiftl 3 1)) with 166 in Hrx;
      change (Z.lor 160 (Z.shiftl 4 1)) with 168 in Hrx;
      change (Z.lor 160 (Z.shiftl 5 1)) with 170 in Hrx;
      change (Z.lor 160 (Z.shiftl 6 1)) with 172 in Hrx;
      change (Z.lor 160 (Z.shiftl 7 1)) with 174 in Hrx;
      rewrite Hrx; reflexivity |]).
  contradiction.
Qed.

Lemma PromRead_success_inv h p env hist :
  fst (fst (MS5611PromRead h p env hist)) = MS5611_STATE_READY ->
  fst (fst (prom_read_words h prom_addresses p env hist)) = true /\
  snd (fst (MS5611PromRead h p env hist)) =
    prom_swap_words prom_addresses
      (snd (fst (prom_read_words h prom_addresses p env hist))) /\
  snd (MS5611PromRead h p env hist) =
    snd (prom_read_words h prom_addresses p env hist).
Proof.
  unfold MS5611PromRead. hal_unfold.
  destruct (fst (fst (prom_read_words _ _ _ _ _))); cbn [fst snd];
    [| discriminate].
  intros _. rewrite app_nil_r. repeat split.
Qed.

(** C5: when [MS5611PromRead] succeeds it has made exactly the eight
    transactions of the words 0..7 in order, each one asserting the select
    line, transmitting the single byte 0xA0 | (i << 1), receiving two bytes
    and releasing the line; the table it leaves is the captured table with
    the two bytes of every word exchanged, so that a word received as
    [b0] then [b1] is stored as [b0] then [b1] in memory (value
    [b0 | b1 << 8]) by the first loop and ends as [(b0 << 8) | b1]. *)
Theorem C5_prom_read_transactions h p env hist :
  fst (fst (MS5611PromRead h p env hist)) = MS5611_STATE_READY ->
  let r := MS5611PromRead h p env hist in
  let captured := snd (fst (prom_read_words h prom_addresses p env hist)) in
  snd r = flat_map (prom_transaction h) [0; 1; 2; 3; 4; 5; 6; 7] /\
  snd (fst r) = prom_swap_words [0; 1; 2; 3; 4; 5; 6; 7] captured /\
  forall i b0 b1 rest,
    In i [0; 1; 2; 3; 4; 5; 6; 7] ->
    rx (env (hist_at_receive h hist i)) = b0 :: b1 :: rest ->
    load16 captured i = Z.lor (u8 b0) (Z.shiftl (u8 b1) 8) /\
    load16 (snd (fst r)) i = swap_word (load16 captured i) /\
    load16 (snd (fst r)) i = Z.lor (Z.shiftl (u8 b0) 8) (u8 b1).
Proof.
  intros Hok. cbv zeta.
  destruct (PromRead_success_inv h p env hist Hok) as (Hw & Ht & Hev).
  destruct (prom_read_words_success h prom_addresses p env hist Hw) as (Hev' & Hcap).
  split; [rewrite Hev, Hev'; reflexivity |].
  split; [exact Ht |].
  intros i b0 b1 rest Hin Hrx.
  assert (Hc : load16 (snd (fst (prom_read_words h prom_addresses p env hist))) i =
               Z.lor (u8 b0) (Z.shiftl (u8 b1) 8)).
  { rewrite Hcap. apply (captured_words_load h env hist p i b0 b1 rest Hin Hrx). }
  assert (Hs : load16 (snd (fst (MS5611PromRead h p env hist))) i =
               swap_word (load16 (snd (fst (prom_read_words h prom_addresses p env hist))) i)).
  { rewrite Ht. apply prom_swap_words_load. exact Hin. }
  split; [exact Hc |]. split; [exact Hs |].
  rewrite Hs, Hc. apply swap_word_lor; apply u8_range.
Qed.

Lemma C5_prom_read_transactions_witness :
  let env := env_const [0x9C; 0xBF] in
  fst (fst (MS5611PromRead hw0 prom0 env [])) = MS5611_STATE_READY /\
  snd (MS5611PromRead hw0 prom0 env []) =
    flat_map (prom_transaction hw0) [0; 1; 2; 3; 4; 5; 6; 7] /\
  load16 (snd (fst (MS5611PromRead hw0 prom0 env []))) 1 = 0x9CBF.
Proof.
  cbv zeta.
  pose proof (C5_prom_read_transactions hw0 prom0 (env_const [0x9C; 0xBF]) []
                eq_refl) as H.
  cbv zeta in H. destruct H as (Hev & _ & Hw).
  split; [reflexivity |]. split; [exact Hev |].
  destruct (Hw 1 0x9C 0xBF [] ltac:(cbn; auto) eq_refl) as (_ & _ & H1).
  exact H1.
Defined.

(** ** Protocol: reading a conversion result *)

(** C6: when [MS5611_ADC_Read] succeeds it has asserted the select line,
    transmitted the single byte 0x00, received three bytes and released the
    line, and the value it stores is the three bytes of [reply] assembled most
    significant first, [(reply[0] << 16) | (reply[1] << 8) | reply[2]], a
    24-bit unsigned value. *)
Theorem C6_adc_read_value h raw env hist :
  fst (fst (MS5611_ADC_Read h raw env hist)) = MS5611_STATE_READY ->
  let r := MS5611_ADC_Read h raw env hist in
  let cs := WritePin (CS_GPIOport h) (CS_GPIOpin h) in
  let tx := Transmit (SPIhandler h) [0x00] 1 10 in
  let rcv := Receive (SPIhandler h) 3 10 in
  let reply := fill [0; 0; 0] (rx (env (hist ++ [cs GPIO_PIN_RESET; tx; rcv]))) in
  let b i := nth i reply 0 in
  snd r = [cs GPIO_PIN_RESET; tx; rcv; cs GPIO_PIN_SET] /\
  length reply = 3%nat /\
  Forall is_byte reply /\
  snd (fst r) = Z.lor (Z.lor (Z.shiftl (b 0%nat) 16) (Z.shiftl (b 1%nat) 8)) (b 2%nat) /\
  snd (fst r) = 65536 * b 0%nat + 256 * b 1%nat + b 2%nat /\
  0 <= snd (fst r) < 2 ^ 24.
Proof.
  cbv zeta. unfold MS5611_ADC_Read. hal_unfold.
  rewrite <- !app_assoc. cbn [app].
  case_status E; cbn [negb is_OK fst snd app]; try discriminate.
  rewrite <- !app_assoc. cbn [app].
  case_status E'; cbn [negb is_OK fst snd app]; try discriminate.
  intros _. change READ_ADC_COMMAND with 0.
  set (reply := fill [0; 0; 0] (rx _)).
  assert (Hby : Forall is_byte reply).
  { apply fill_bytes. repeat constructor; unfold is_byte; lia. }
  assert (H0 := nth_is_byte reply 0 Hby).
  assert (H1 := nth_is_byte reply 1 Hby).
  assert (H2 := nth_is_byte reply 2 Hby).
  destruct (be24_value _ _ _ H0 H1 H2) as (Hv & Hl).
  split; [reflexivity |].
  split; [apply fill_length |].
  split; [exact Hby |].
  split; [exact Hl |].
  split; [exact Hv |].
  rewrite Hv. unfold is_byte in H0, H1, H2. change (2 ^ 24) with 16777216. lia.
Qed.

Lemma C6_adc_read_value_witness :
  let r := MS5611_ADC_Read hw0 7 (env_const [0x8A; 0xA2; 0x1A]) [] in
  fst (fst r) = MS5611_STATE_READY /\ snd (fst r) = 9085466 /\
  snd r = [WritePin 2 3 GPIO_PIN_RESET; Transmit 1 [0] 1 10; Receive 1 3 10;
           WritePin 2 3 GPIO_PIN_SET].
Proof.
  cbv zeta.
  pose proof (C6_adc_read_value hw0 7 (env_const [0x8A; 0xA2; 0x1A]) [] eq_refl) as H.
  cbv zeta in H. destruct H as (Hev & _ & _ & _ & Hv & _).
  split; [reflexivity |]. split; [exact Hv | exact Hev].
Defined.

Lemma ADC_Read_error_output h raw env hist :
  fst (fst (MS5611_ADC_Read h raw env hist)) = MS5611_HAL_ERROR ->
  snd (fst (MS5611_ADC_Read h raw env hist)) = raw.
Proof.
  unfold MS5611_ADC_Read. hal_unfold.
  case_status E; cbn [negb is_OK fst snd app]; try reflexivity.
  case_status E'; cbn [negb is_OK fst snd app]; try reflexivity.
  discriminate.
Qed.

(** C10: when [MS5611_ADC_Read] returns the bus-error outcome, [*raw_data]
    holds the value it held on entry, and a transfer did fail; the value is
    assigned only once both transfers have answered [HAL_OK]. *)
Theorem C10_adc_read_error_keeps_output h raw env hist :
  fst (fst (MS5611_ADC_Read h raw env hist)) = MS5611_HAL_ERROR ->
  snd (fst (MS5611_ADC_Read h raw env hist)) = raw /\
  any_failure env hist (snd (MS5611_ADC_Read h raw env hist)) = true.
Proof.
  intros H. split; [apply ADC_Read_error_output | apply ADC_Read_error_iff]; exact H.
Qed.

Lemma C10_adc_read_error_keeps_output_witness :
  let r := MS5611_ADC_Read hw0 4242 (env_fail_at 3 [1; 2; 3]) [] in
  fst (fst r) = MS5611_HAL_ERROR /\ snd (fst r) = 4242.
Proof.
  cbv zeta. split; [reflexivity |].
  exact (proj1 (C10_adc_read_error_keeps_output hw0 4242 (env_fail_at 3 [1; 2; 3]) []
                  eq_refl)).
Defined.

(** The status [MS5611_ADC_Read] returns is one of two, and
    [MS5611_STATE_READY] means neither transfer failed. *)
Lemma ADC_Read_status h raw env hist :
  let r := MS5611_ADC_Read h raw env hist in
  (fst (fst r) = MS5611_STATE_READY /\ any_failure env hist (snd r) = false) \/
  (fst (fst r) = MS5611_HAL_ERROR /\ snd (fst r) = raw).
Proof.
  cbv zeta.
  destruct (fst (fst (MS5611_ADC_Read h raw env hist))) eqn:E.
  - exfalso. revert E. unfold MS5611_ADC_Read. hal_unfold.
    case_status E1; cbn [negb is_OK fst]; try discriminate.
    case_status E2; cbn [negb is_OK fst]; discriminate.
  - left. split; [reflexivity |].
    destruct (any_failure _ _ _) eqn:F; [| reflexivity].
    apply ADC_Read_error_iff in F. congruence.
  - exfalso. revert E. unfold MS5611_ADC_Read. hal_unfold.
    case_status E1; cbn [negb is_OK fst]; try discriminate.
    case_status E2; cbn [negb is_OK fst]; discriminate.
  - right. split; [reflexivity |].
    apply ADC_Read_error_output. exact E.
Qed.

(** ** The [SPI_Timeout] field *)

Lemma Pressure_Conversion_timeout10 h osr env hist :
  forallb timeout10 (snd (MS5611_Pressure_Conversion h osr env hist)) = true.
Proof.
  unfold MS5611_Pressure_Conversion. hal_unfold. case_status E; reflexivity.
Qed.

Lemma Temperature_Conversion_timeout10 h osr env hist :
  forallb timeout10 (snd (MS5611_Temperature_Conversion h osr env hist)) = true.
Proof.
  unfold MS5611_Temperature_Conversion. hal_unfold. case_status E; reflexivity.
Qed.

Lemma ADC_Read_timeout10 h raw env hist :
  forallb timeout10 (snd (MS5611_ADC_Read h raw env hist)) = true.
Proof.
  unfold MS5611_ADC_Read. hal_unfold.
  case_status E; cbn [negb is_OK fst snd app]; try reflexivity.
  case_status E'; reflexivity.
Qed.

Lemma same_wiring_timeout h1 h2 :
  same_wiring h1 h2 ->
  h2 = mkHW (SPIhandler h1) (CS_GPIOport h1) (CS_GPIOpin h1) (SPI_Timeout h2).
Proof.
  destruct h1, h2. unfold same_wiring. cbn. intros (-> & -> & ->). reflexivity.
Qed.

Lemma prom_read_words_wiring h t addrs : forall p env hist,
  prom_read_words
    (mkHW (SPIhandler h) (CS_GPIOport h) (CS_GPIOpin h) t) addrs p env hist =
  prom_read_words h addrs p env hist.
Proof.
  induction addrs as [| a rest IH]; intros p env hist; [reflexivity |].
  rewrite !prom_read_words_cons. cbv zeta. cbn [SPIhandler CS_GPIOport CS_GPIOpin].
  destruct (is_OK _); [| reflexivity].
  destruct (is_OK _); [| reflexivity].
  rewrite IH. reflexivity.
Qed.

Lemma PromRead_wiring h t p env hist :
  MS5611PromRead (mkHW (SPIhandler h) (CS_GPIOport h) (CS_GPIOpin h) t) p env hist =
  MS5611PromRead h p env hist.
Proof.
  unfold MS5611PromRead, bind. rewrite prom_read_words_wiring. reflexivity.
Qed.

Lemma Init_wiring h t p env hist :
  MS5611_Init (mkHW (SPIhandler h) (CS_GPIOport h) (CS_GPIOpin h) t) p env hist =
  MS5611_Init h p env hist.
Proof.
  rewrite !Init_unfold. cbv zeta. unfold reset_transaction.
  cbn [SPIhandler CS_GPIOport CS_GPIOpin]. rewrite PromRead_wiring. reflexivity.
Qed.

(** C8: two handler values that differ only in [SPI_Timeout] give, for every
    operation, every environment and every argument, the same calls to the
    HAL and the same result; and every transfer an operation makes carries
    the timeout 10. *)
Theorem C8_SPI_Timeout_never_read h1 h2 p raw osr env hist :
  same_wiring h1 h2 ->
  (MS5611_Init h1 p env hist = MS5611_Init h2 p env hist /\
   MS5611PromRead h1 p env hist = MS5611PromRead h2 p env hist /\
   MS5611_Pressure_Conversion h1 osr env hist =
     MS5611_Pressure_Conversion h2 osr env hist /\
   MS5611_Temperature_Conversion h1 osr env hist =
     MS5611_Temperature_Conversion h2 osr env hist /\
   MS5611_ADC_Read h1 raw env hist = MS5611_ADC_Read h2 raw env hist) /\
  (forallb timeout10 (snd (MS5611_Init h1 p env hist)) = true /\
   forallb timeout10 (snd (MS5611PromRead h1 p env hist)) = true /\
   forallb timeout10 (snd (MS5611_Pressure_Conversion h1 osr env hist)) = true /\
   forallb timeout10 (snd (MS5611_Temperature_Conversion h1 osr env hist)) = true /\
   forallb timeout10 (snd (MS5611_ADC_Read h1 raw env hist)) = true).
Proof.
  intros Hw. rewrite (same_wiring_timeout h1 h2 Hw).
  split.
  - rewrite Init_wiring, PromRead_wiring. repeat split.
  - repeat split;
      auto using Init_timeout10, PromRead_timeout10, Pressure_Conversion_timeout10,
        Temperature_Conversion_timeout10, ADC_Read_timeout10.
Qed.

Lemma C8_SPI_Timeout_never_read_witness :
  let h1 := mkHW 1 2 3 10 in
  let h2 := mkHW 1 2 3 200 in
  let env := env_const [0x12; 0x34; 0x56] in
  same_wiring h1 h2 /\
  MS5611_Init h1 prom0 env [] = MS5611_Init h2 prom0 env [] /\
  MS5611_ADC_Read h1 0 env [] = MS5611_ADC_Read h2 0 env [] /\
  forallb timeout10 (snd (MS5611_Init h2 prom0 env [])) = true.
Proof.
  cbv zeta.
  assert (Hw : same_wiring (mkHW 1 2 3 10) (mkHW 1 2 3 200))
    by (repeat split; reflexivity).
  destruct (C8_SPI_Timeout_never_read (mkHW 1 2 3 10) (mkHW 1 2 3 200) prom0 0 0
              (env_const [0x12; 0x34; 0x56]) [] Hw) as ((Hi & _ & _ & _ & Ha) & (Ht & _)).
  split; [exact Hw |]. split; [exact Hi |]. split; [exact Ha |].
  rewrite <- Hi. exact Ht.
Defined.

(** ** Initialisation and transfer failures *)

(** The select line is framed in every operation, whatever the transfers
    answer. *)
Lemma select_line_framed h p raw osr env hist :
  cs_framed h (snd (MS5611_Init h p env hist)) /\
  cs_framed h (snd (MS5611PromRead h p env hist)) /\
  cs_framed h (snd (MS5611_Pressure_Conversion h osr env hist)) /\
  cs_framed h (snd (MS5611_Temperature_Conversion h osr env hist)) /\
  cs_framed h (snd (MS5611_ADC_Read h raw env hist)).
Proof.
  repeat split;
    auto using Init_framed, PromRead_framed, Pressure_Conversion_framed,
      Temperature_Conversion_framed, ADC_Read_framed.
Qed.

(** A failed reset transmit makes [MS5611_Init] return the bus-error outcome
    and leave the table as it was. *)
Lemma Init_reset_failure h p env hist :
  is_OK (status (env (hist ++
    [WritePin (CS_GPIOport h) (CS_GPIOpin h) GPIO_PIN_RESET;
     Transmit (SPIhandler h) [0x1E] 1 10]))) = false ->
  fst (MS5611_Init h p env hist) = (MS5611_HAL_ERROR, p).
Proof.
  intros H. rewrite Init_unfold. cbv zeta. change RESET_COMMAND with 30.
  rewrite H. reflexivity.
Qed.

(** C9: once the reset transmit has succeeded, [MS5611_Init] never returns
    the bus-error outcome; its result is the validity check applied to the
    table [MS5611PromRead] left, whatever status [MS5611PromRead] returned.
    In particular, after a failed calibration read that leaves a table with
    [off] not 0 and [tref] not 0xff, it returns [MS5611_STATE_READY]. *)
Theorem C9_init_ignores_prom_status h p env hist :
  status (env (hist ++
    [WritePin (CS_GPIOport h) (CS_GPIOpin h) GPIO_PIN_RESET;
     Transmit (SPIhandler h) [0x1E] 1 10])) = HAL_OK ->
  let r := MS5611PromRead h p env (hist ++ reset_transaction h) in
  let t := snd (fst r) in
  let i := MS5611_Init h p env hist in
  fst (fst i) <> MS5611_HAL_ERROR /\
  snd (fst i) = t /\
  snd i = reset_transaction h ++ snd r /\
  fst (fst i) = (if (off t =? 0x00) || (tref t =? 0xff)
                 then MS5611_STATE_FAILED else MS5611_STATE_READY) /\
  (fst (fst r) = MS5611_HAL_ERROR -> off t <> 0x00 -> tref t <> 0xff ->
   fst (fst i) = MS5611_STATE_READY).
Proof.
  intros Hreset. cbv zeta. rewrite Init_unfold. cbv zeta.
  change RESET_COMMAND with 30. rewrite Hreset. cbn [is_OK fst snd].
  repeat split.
  - destruct ((off _ =? 0) || (tref _ =? 255)); discriminate.
  - intros _ Hoff Htref.
    apply Z.eqb_neq in Hoff. apply Z.eqb_neq in Htref.
    rewrite Hoff, Htref. reflexivity.
Qed.

Lemma C9_init_ignores_prom_status_witness :
  let env := env_fail_at 18 [0x12; 0x34] in
  fst (fst (MS5611PromRead hw0 prom0 env ([] ++ reset_transaction hw0))) =
    MS5611_HAL_ERROR /\
  fst (fst (MS5611_Init hw0 prom0 env [])) = MS5611_STATE_READY /\
  fst (fst (MS5611_Init hw0 prom0 env [])) <> MS5611_HAL_ERROR.
Proof.
  cbv zeta.
  pose proof (C9_init_ignores_prom_status hw0 prom0 (env_fail_at 18 [0x12; 0x34]) []
                eq_refl) as H.
  cbv zeta in H. destruct H as (Hne & _ & _ & _ & Hready).
  split; [reflexivity |]. split; [| exact Hne].
  apply Hready; [reflexivity | discriminate | discriminate].
Defined.

(** C4 fails on the code for [MS5611_Init]: with the reset and the first
    three calibration words read successfully and the receive of the fourth
    word timing out, [MS5611PromRead] returns [MS5611_HAL_ERROR], yet
    [MS5611_Init] returns [MS5611_STATE_READY], not the bus-error outcome.
    The select line is framed all the same. *)
Theorem C4_init_hides_transfer_failure :
  let env := env_fail_at 19 [0x12; 0x34] in
  let r := MS5611_Init hw0 prom0 env [] in
  any_failure env [] (snd r) = true /\
  fst (fst (MS5611PromRead hw0 prom0 env (reset_transaction hw0))) = MS5611_HAL_ERROR /\
  fst (fst r) = MS5611_STATE_READY /\
  fst (fst r) <> MS5611_HAL_ERROR /\
  snd (fst r) = mkProm 0x3412 0x3412 0x3412 0 0 0 0 0 /\
  cs_framed hw0 (snd r).
Proof.
  vm_compute. repeat split; discriminate.
Qed.

(** C2 fails on the code for the reference-temperature half: with every
    transfer succeeding and every received byte 0xFF (what an absent device
    reads as), the table has [tref = 0xFFFF], and [MS5611_Init] returns
    [MS5611_STATE_READY].  The check in the source compares [tref] with
    0xff. *)
Theorem C2_init_ready_with_tref_ffff :
  let r := MS5611_Init hw0 prom0 (env_const [0xFF; 0xFF]) [] in
  tref (snd (fst r)) = 0xFFFF /\
  off (snd (fst r)) = 0xFFFF /\
  prom_wf (snd (fst r)) /\
  fst (fst r) = MS5611_STATE_READY.
Proof.
  vm_compute. repeat split; discriminate.
Qed.

(** * Further properties of the driver *)

(** ** What follows a failed transfer *)

Lemma stops_at_failure_app h env hist evs1 evs2 :
  any_failure env hist evs1 = false ->
  stops_at_failure h env hist (evs1 ++ evs2) =
  stops_at_failure h env (hist ++ evs1) evs2.
Proof.
  revert hist. induction evs1 as [| e evs1 IH]; intros hist H.
  - cbn. rewrite app_nil_r. reflexivity.
  - cbn [any_failure] in H. apply orb_false_elim in H. destruct H as [He Hr].
    cbn [app stops_at_failure]. rewrite He, (IH _ Hr), <- app_assoc. reflexivity.
Qed.

Ltac stop_cbn :=
  cbn [fst snd app negb is_OK andb orb is_transfer stops_at_failure];
  rewrite ?Z.eqb_refl;
  cbn [fst snd app negb is_OK andb orb is_transfer stops_at_failure].

Lemma prom_read_words_stops h addrs : forall p env hist,
  stops_at_failure h env hist (snd (prom_read_words h addrs p env hist)) = true.
Proof.
  induction addrs as [| a rest IH]; intros p env hist; [reflexivity |].
  rewrite prom_read_words_cons. cbv zeta.
  destruct (is_OK (status (env (hist ++ [_; _])))) eqn:E2.
  - destruct (is_OK (status (env (hist ++ [_; _; _])))) eqn:E3.
    + stop_cbn. rewrite <- !app_assoc. cbn [app]. rewrite E2, E3. stop_cbn.
      apply IH.
    + stop_cbn. rewrite <- !app_assoc. cbn [app]. rewrite E2, E3. stop_cbn.
      reflexivity.
  - stop_cbn. rewrite <- !app_assoc. cbn [app]. rewrite E2. stop_cbn.
    reflexivity.
Qed.

Lemma PromRead_stops h p env hist :
  stops_at_failure h env hist (snd (MS5611PromRead h p env hist)) = true.
Proof.
  unfold MS5611PromRead. hal_unfold.
  destruct (fst (fst (prom_read_words _ _ _ _ _))); cbn [snd]; rewrite app_nil_r;
    apply prom_read_words_stops.
Qed.

Lemma Init_stops h p env hist :
  stops_at_failure h env hist (snd (MS5611_Init h p env hist)) = true.
Proof.
  rewrite Init_unfold. cbv zeta. change RESET_COMMAND with 30.
  destruct (is_OK (status (env (hist ++ [_; _])))) eqn:E.
  - cbn [snd]. rewrite stops_at_failure_app.
    + apply PromRead_stops.
    + unfold reset_transaction. hal_cbn. rewrite <- !app_assoc. cbn [app].
      rewrite E. reflexivity.
  - stop_cbn. rewrite <- !app_assoc. cbn [app]. rewrite E. stop_cbn. reflexivity.
Qed.

Lemma Pressure_Conversion_stops h osr env hist :
  stops_at_failure h env hist (snd (MS5611_Pressure_Conversion h osr env hist)) = true.
Proof.
  unfold MS5611_Pressure_Conversion. hal_unfold.
  case_status E; stop_cbn; rewrite ?E; stop_cbn; reflexivity.
Qed.

Lemma Temperature_Conversion_stops h osr env hist :
  stops_at_failure h env hist (snd (MS5611_Temperature_Conversion h osr env hist)) = true.
Proof.
  unfold MS5611_Temperature_Conversion. hal_unfold.
  case_status E; stop_cbn; rewrite ?E; stop_cbn; reflexivity.
Qed.

Lemma ADC_Read_stops h raw env hist :
  stops_at_failure h env hist (snd (MS5611_ADC_Read h raw env hist)) = true.
Proof.
  unfold MS5611_ADC_Read. hal_unfold.
  case_status E; stop_cbn; rewrite ?E; stop_cbn; try reflexivity.
  case_status E'; stop_cbn; rewrite ?E, ?E'; stop_cbn; reflexivity.
Qed.

(** X1: in every operation and whatever the transfers answer, the select
    line is asserted before each transfer and released exactly once after it,
    and is released when the operation returns. *)
Theorem X1_select_line_framed h p raw osr env hist :
  cs_framed h (snd (MS5611_Init h p env hist)) /\
  cs_framed h (snd (MS5611PromRead h p env hist)) /\
  cs_framed h (snd (MS5611_Pressure_Conversion h osr env hist)) /\
  cs_framed h (snd (MS5611_Temperature_Conversion h osr env hist)) /\
  cs_framed h (snd (MS5611_ADC_Read h raw env hist)).
Proof.
  split; [apply Init_framed |].
  split; [apply PromRead_framed |].
  split; [apply Pressure_Conversion_framed |].
  split; [apply Temperature_Conversion_framed | apply ADC_Read_framed].
Qed.

(** X2: [MS5611PromRead], [MS5611_Pressure_Conversion],
    [MS5611_Temperature_Conversion] and [MS5611_ADC_Read] return
    [MS5611_HAL_ERROR] exactly when one of the transfers they made did not
    answer [HAL_OK]. *)
Theorem X2_bus_error_iff_transfer_failed h p raw osr env hist :
  (any_failure env hist (snd (MS5611PromRead h p env hist)) = true <->
   fst (fst (MS5611PromRead h p env hist)) = MS5611_HAL_ERROR) /\
  (any_failure env hist (snd (MS5611_Pressure_Conversion h osr env hist)) = true <->
   fst (MS5611_Pressure_Conversion h osr env hist) = MS5611_HAL_ERROR) /\
  (any_failure env hist (snd (MS5611_Temperature_Conversion h osr env hist)) = true <->
   fst (MS5611_Temperature_Conversion h osr env hist) = MS5611_HAL_ERROR) /\
  (any_failure env hist (snd (MS5611_ADC_Read h raw env hist)) = true <->
   fst (fst (MS5611_ADC_Read h raw env hist)) = MS5611_HAL_ERROR).
Proof.
  split; [apply PromRead_error_iff |].
  split; [apply Pressure_Conversion_error_iff |].
  split; [apply Temperature_Conversion_error_iff | apply ADC_Read_error_iff].
Qed.

(** X3: in every operation, once a transfer has failed the only call still
    made is one release of the select line: no later transfer, no delay. *)
Theorem X3_nothing_after_failed_transfer h p raw osr env hist :
  stops_at_failure h env hist (snd (MS5611_Init h p env hist)) = true /\
  stops_at_failure h env hist (snd (MS5611PromRead h p env hist)) = true /\
  stops_at_failure h env hist (snd (MS5611_Pressure_Conversion h osr env hist)) = true /\
  stops_at_failure h env hist (snd (MS5611_Temperature_Conversion h osr env hist)) = true /\
  stops_at_failure h env hist (snd (MS5611_ADC_Read h raw env hist)) = true.
Proof.
  split; [apply Init_stops |].
  split; [apply PromRead_stops |].
  split; [apply Pressure_Conversion_stops |].
  split; [apply Temperature_Conversion_stops | apply ADC_Read_stops].
Qed.

(** ** Initialisation outcomes *)

Lemma is_OK_true s : is_OK s = true <-> s = HAL_OK.
Proof. destruct s; cbn; split; congruence. Qed.

(** X4: when the reset transmit does not answer [HAL_OK], [MS5611_Init]
    returns [MS5611_HAL_ERROR], leaves the calibration table as it was and
    makes three calls only: assert, the transmit of 0x1E, release.  No delay
    and no calibration read follow. *)
Theorem X4_init_reset_failure h p env hist :
  status (env (hist ++
    [WritePin (CS_GPIOport h) (CS_GPIOpin h) GPIO_PIN_RESET;
     Transmit (SPIhandler h) [0x1E] 1 10])) <> HAL_OK ->
  MS5611_Init h p env hist =
  ((MS5611_HAL_ERROR, p),
   [WritePin (CS_GPIOport h) (CS_GPIOpin h) GPIO_PIN_RESET;
    Transmit (SPIhandler h) [0x1E] 1 10;
    WritePin (CS_GPIOport h) (CS_GPIOpin h) GPIO_PIN_SET]).
Proof.
  intros H. rewrite Init_unfold. cbv zeta. change RESET_COMMAND with 30.
  destruct (is_OK _) eqn:E; [| reflexivity].
  apply is_OK_true in E. contradiction.
Qed.

Lemma X4_init_reset_failure_witness :
  MS5611_Init hw0 example_prom (env_fail_at 2 [0x12; 0x34]) [] =
  ((MS5611_HAL_ERROR, example_prom),
   [WritePin 2 3 GPIO_PIN_RESET; Transmit 1 [0x1E] 1 10; WritePin 2 3 GPIO_PIN_SET]).
Proof.
  apply (X4_init_reset_failure hw0 example_prom (env_fail_at 2 [0x12; 0x34]) []).
  vm_compute. discriminate.
Defined.

(** X5: [MS5611_Init] never returns [MS5611_STATE_BUSY]; it returns
    [MS5611_HAL_ERROR] exactly when the reset transmit failed; when it
    returns [MS5611_STATE_READY] the table it leaves has [off] not 0 and
    [tref] not 0xff, and when it returns [MS5611_STATE_FAILED] the table has
    [off = 0] or [tref = 0xff]. *)
Theorem X5_init_outcome h p env hist :
  let i := MS5611_Init h p env hist in
  let t := snd (fst i) in
  fst (fst i) <> MS5611_STATE_BUSY /\
  (fst (fst i) = MS5611_HAL_ERROR <->
   status (env (hist ++
     [WritePin (CS_GPIOport h) (CS_GPIOpin h) GPIO_PIN_RESET;
      Transmit (SPIhandler h) [0x1E] 1 10])) <> HAL_OK) /\
  (fst (fst i) = MS5611_STATE_READY -> off t <> 0 /\ tref t <> 0xff) /\
  (fst (fst i) = MS5611_STATE_FAILED -> off t = 0 \/ tref t = 0xff).
Proof.
  cbv zeta. rewrite Init_unfold. cbv zeta. change RESET_COMMAND with 30.
  destruct (is_OK _) eqn:E.
  - apply is_OK_true in E. cbn [fst snd].
    destruct (off _ =? 0) eqn:E1; destruct (tref _ =? 255) eqn:E2; cbn [orb];
      rewrite ?Z.eqb_eq, ?Z.eqb_neq in *;
      repeat split; try discriminate; try congruence; auto.
  - assert (Hne : status (env (hist ++
        [WritePin (CS_GPIOport h) (CS_GPIOpin h) GPIO_PIN_RESET;
         Transmit (SPIhandler h) [30] 1 10])) <> HAL_OK).
    { intros Hs. apply is_OK_true in Hs. congruence. }
    cbn [fst snd]. repeat split; try discriminate; auto.
Qed.

(** ** Conversion commands *)

Lemma lor_nibble hi osr : 0 <= osr < 16 -> Z.lor (Z.shiftl hi 4) osr = hi * 16 + osr.
Proof.
  intros H. rewrite lor_shiftl_add by (change (2 ^ 4) with 16; lia). reflexivity.
Qed.

(** X6: for an oversampling code below 16, [MS5611_Pressure_Conversion]
    makes exactly the calls assert, transmit of the one byte 0x40 + code,
    release, and [MS5611_Temperature_Conversion] the same with 0x50 + code,
    on success and on failure alike; each returns [MS5611_STATE_BUSY] when the
    transmit answered [HAL_OK] and [MS5611_HAL_ERROR] otherwise. *)
Theorem X6_conversion_commands h osr env hist :
  0 <= osr < 16 ->
  let cs := WritePin (CS_GPIOport h) (CS_GPIOpin h) in
  let d1 := Transmit (SPIhandler h) [0x40 + osr] 1 10 in
  let d2 := Transmit (SPIhandler h) [0x50 + osr] 1 10 in
  MS5611_Pressure_Conversion h osr env hist =
    (if is_OK (status (env (hist ++ [cs GPIO_PIN_RESET; d1])))
     then MS5611_STATE_BUSY else MS5611_HAL_ERROR,
     [cs GPIO_PIN_RESET; d1; cs GPIO_PIN_SET]) /\
  MS5611_Temperature_Conversion h osr env hist =
    (if is_OK (status (env (hist ++ [cs GPIO_PIN_RESET; d2])))
     then MS5611_STATE_BUSY else MS5611_HAL_ERROR,
     [cs GPIO_PIN_RESET; d2; cs GPIO_PIN_SET]).
Proof.
  intros Hosr. cbv zeta.
  assert (E1 : u8 (Z.lor CONVERT_D1_COMMAND osr) = 64 + osr).
  { change CONVERT_D1_COMMAND with (Z.shiftl 4 4). rewrite lor_nibble by assumption.
    apply u8_id. lia. }
  assert (E2 : u8 (Z.lor CONVERT_D2_COMMAND osr) = 80 + osr).
  { change CONVERT_D2_COMMAND with (Z.shiftl 5 4). rewrite lor_nibble by assumption.
    apply u8_id. lia. }
  unfold MS5611_Pressure_Conversion, MS5611_Temperature_Conversion. hal_unfold.
  rewrite E1, E2, <- !app_assoc. cbn [app].
  split; destruct (is_OK _); reflexivity.
Qed.

Lemma X6_conversion_commands_witness :
  MS5611_Pressure_Conversion hw0 MS5611_OSR_4096 (env_const []) [] =
    (MS5611_STATE_BUSY,
     [WritePin 2 3 GPIO_PIN_RESET; Transmit 1 [0x48] 1 10; WritePin 2 3 GPIO_PIN_SET]) /\
  MS5611_Temperature_Conversion hw0 MS5611_OSR_4096 (env_const []) [] =
    (MS5611_STATE_BUSY,
     [WritePin 2 3 GPIO_PIN_RESET; Transmit 1 [0x58] 1 10; WritePin 2 3 GPIO_PIN_SET]).
Proof.
  apply (X6_conversion_commands hw0 MS5611_OSR_4096 (env_const []) []).
  unfold MS5611_OSR_4096. lia.
Defined.

(** X7: the oversampling argument is not checked.  With bit 4 set in it,
    [MS5611_Pressure_Conversion] transmits the byte of a temperature
    conversion: the two functions then make the same calls and return the
    same status. *)
Theorem X7_osr_not_checked h osr env hist :
  MS5611_Pressure_Conversion h (Z.lor osr 0x10) env hist =
  MS5611_Temperature_Conversion h (Z.lor osr 0x10) env hist.
Proof.
  unfold MS5611_Pressure_Conversion, MS5611_Temperature_Conversion.
  assert (E : Z.lor CONVERT_D1_COMMAND (Z.lor osr 16) =
              Z.lor CONVERT_D2_COMMAND (Z.lor osr 16)).
  { rewrite (Z.lor_comm osr 16), !Z.lor_assoc. reflexivity. }
  rewrite E. reflexivity.
Qed.

(** ** The byte exchange of [MS5611PromRead] *)

Lemma swap_word_value w :
  0 <= w < 65536 -> swap_word w = (w mod 256) * 256 + w / 256.
Proof.
  intros Hw.
  assert (Hx : is_byte (w mod 256)) by (apply Z.mod_pos_bound; lia).
  assert (Hy : is_byte (w / 256)).
  { unfold is_byte. split; [apply Z.div_pos; lia |].
    apply Z.div_lt_upper_bound; lia. }
  assert (E : w = Z.lor (w mod 256) (Z.shiftl (w / 256) 8)).
  { unfold is_byte in Hx, Hy.
    rewrite Z.lor_comm, lor_shiftl_add by (change (2 ^ 8) with 256; lia).
    change (2 ^ 8) with 256. pose proof (Z.div_mod w 256 ltac:(lia)). lia. }
  rewrite E at 1. rewrite swap_word_lor by assumption.
  unfold is_byte in Hx, Hy.
  rewrite lor_shiftl_add by (change (2 ^ 8) with 256; lia). reflexivity.
Qed.

(** X8: the second loop of [MS5611PromRead] turns each 16-bit word [w] into
    [(w mod 256) * 256 + w / 256], and applied twice to a table of 16-bit
    words it gives the table back. *)
Theorem X8_byte_swap_round_trip p :
  prom_wf p ->
  (forall i, In i prom_addresses ->
     load16 (prom_swap_words prom_addresses p) i =
     (load16 p i mod 256) * 256 + load16 p i / 256) /\
  prom_swap_words prom_addresses (prom_swap_words prom_addresses p) = p.
Proof.
  intros Hwf. destruct p as [a0 a1 a2 a3 a4 a5 a6 a7].
  unfold prom_wf in Hwf. cbn [reserved sens off tcs tco tref tempsens crc] in Hwf.
  destruct Hwf as (H0 & H1 & H2 & H3 & H4 & H5 & H6 & H7).
  split.
  - intros i Hin. rewrite prom_swap_words_load by assumption.
    cbn [In prom_addresses] in Hin.
    repeat (destruct Hin as [<- | Hin];
            [cbn [load16 reserved sens off tcs tco tref tempsens crc];
             apply swap_word_value; assumption |]).
    contradiction.
  - cbn [prom_swap_words prom_addresses load16 store16
         reserved sens off tcs tco tref tempsens crc].
    rewrite !swap_word_involutive by assumption. reflexivity.
Qed.

Lemma X8_byte_swap_round_trip_witness :
  load16 (prom_swap_words prom_addresses example_prom) 1 = 0xBF9C /\
  prom_swap_words prom_addresses (prom_swap_words prom_addresses example_prom) =
  example_prom.
Proof.
  assert (Hwf : prom_wf example_prom) by (vm_compute; repeat split; discriminate).
  destruct (X8_byte_swap_round_trip example_prom Hwf) as (Hv & Hrt).
  split; [| exact Hrt].
  exact (Hv 1 ltac:(cbn; auto)).
Defined.

(** ** A successful calibration read replaces the whole table *)

Lemma PromRead_unfold h p env hist :
  MS5611PromRead h p env hist =
  let w := prom_read_words h prom_addresses p env hist in
  if fst (fst w)
  then ((MS5611_STATE_READY, prom_swap_words prom_addresses (snd (fst w))), snd w)
  else ((MS5611_HAL_ERROR, snd (fst w)), snd w).
Proof.
  unfold MS5611PromRead. hal_unfold. cbv zeta.
  destruct (fst (fst (prom_read_words _ _ _ _ _))); cbn [fst snd];
    rewrite app_nil_r; reflexivity.
Qed.

(** Whether the first loop completes, and the calls it makes, do not depend
    on the content of the table. *)
Lemma prom_read_words_flow h addrs : forall p1 p2 env hist,
  fst (fst (prom_read_words h addrs p1 env hist)) =
  fst (fst (prom_read_words h addrs p2 env hist)) /\
  snd (prom_read_words h addrs p1 env hist) =
  snd (prom_read_words h addrs p2 env hist).
Proof.
  induction addrs as [| a rest IH]; intros p1 p2 env hist; [split; reflexivity |].
  rewrite !prom_read_words_cons. cbv zeta.
  destruct (is_OK _); [| split; reflexivity].
  destruct (is_OK _); [| split; reflexivity].
  cbn [fst snd].
  split; [apply (proj1 (IH _ _ _ _)) |].
  do 4 f_equal. apply (proj2 (IH _ _ _ _)).
Qed.

Lemma prom_ext p q :
  (forall i, In i prom_addresses -> load16 p i = load16 q i) -> p = q.
Proof.
  intros H. destruct p, q.
  pose proof (H 0 ltac:(cbn; auto 10)) as E0. pose proof (H 1 ltac:(cbn; auto 10)) as E1.
  pose proof (H 2 ltac:(cbn; auto 10)) as E2. pose proof (H 3 ltac:(cbn; auto 10)) as E3.
  pose proof (H 4 ltac:(cbn; auto 10)) as E4. pose proof (H 5 ltac:(cbn; auto 10)) as E5.
  pose proof (H 6 ltac:(cbn; auto 10)) as E6. pose proof (H 7 ltac:(cbn; auto 10)) as E7.
  cbn in E0, E1, E2, E3, E4, E5, E6, E7. congruence.
Qed.

Lemma prom_wf_load p :
  (forall i, In i prom_addresses -> 0 <= load16 p i < 65536) -> prom_wf p.
Proof.
  intros H. destruct p. unfold prom_wf.
  cbn [reserved sens off tcs tco tref tempsens crc].
  pose proof (H 0 ltac:(cbn; auto 10)) as E0. pose proof (H 1 ltac:(cbn; auto 10)) as E1.
  pose proof (H 2 ltac:(cbn; auto 10)) as E2. pose proof (H 3 ltac:(cbn; auto 10)) as E3.
  pose proof (H 4 ltac:(cbn; auto 10)) as E4. pose proof (H 5 ltac:(cbn; auto 10)) as E5.
  pose proof (H 6 ltac:(cbn; auto 10)) as E6. pose proof (H 7 ltac:(cbn; auto 10)) as E7.
  cbn in E0, E1, E2, E3, E4, E5, E6, E7. tauto.
Qed.

Lemma two_bytes (l : list Z) :
  (2 <= length l)%nat -> exists b0 b1 rest, l = b0 :: b1 :: rest.
Proof.
  destruct l as [| b0 [| b1 rest]]; cbn; intros H; try lia.
  exists b0, b1, rest. reflexivity.
Qed.

(** X9: when every receive delivers at least two bytes and
    [MS5611PromRead] succeeds, nothing of the table it was given survives:
    started on any other table it makes the same calls and leaves the same
    table, and every word of that table is a 16-bit value. *)
Theorem X9_prom_read_replaces_table h p1 p2 env hist :
  (forall t, (2 <= length (rx (env t)))%nat) ->
  fst (fst (MS5611PromRead h p1 env hist)) = MS5611_STATE_READY ->
  MS5611PromRead h p2 env hist = MS5611PromRead h p1 env hist /\
  prom_wf (snd (fst (MS5611PromRead h p1 env hist))).
Proof.
  intros Hlen Hok.
  destruct (PromRead_success_inv h p1 env hist Hok) as (Hw1 & Ht1 & _).
  destruct (prom_read_words_flow h prom_addresses p1 p2 env hist) as (Hf & Hev).
  assert (Hw2 : fst (fst (prom_read_words h prom_addresses p2 env hist)) = true)
    by congruence.
  destruct (prom_read_words_success h prom_addresses p1 env hist Hw1) as (_ & Hc1).
  destruct (prom_read_words_success h prom_addresses p2 env hist Hw2) as (_ & Hc2).
  assert (Hsame : captured_words h env hist prom_addresses p2 =
                  captured_words h env hist prom_addresses p1).
  { apply prom_ext. intros i Hin.
    destruct (two_bytes _ (Hlen (hist_at_receive h hist i))) as (b0 & b1 & rest & Hrx).
    rewrite (captured_words_load h env hist p2 i b0 b1 rest Hin Hrx).
    rewrite (captured_words_load h env hist p1 i b0 b1 rest Hin Hrx).
    reflexivity. }
  split.
  - rewrite !PromRead_unfold. cbv zeta. rewrite Hw1, Hw2, Hc1, Hc2, Hsame, <- Hev.
    reflexivity.
  - rewrite Ht1, Hc1. apply prom_wf_load. intros i Hin.
    destruct (two_bytes _ (Hlen (hist_at_receive h hist i))) as (b0 & b1 & rest & Hrx).
    rewrite prom_swap_words_load by assumption.
    rewrite (captured_words_load h env hist p1 i b0 b1 rest Hin Hrx).
    rewrite swap_word_lor by apply u8_range.
    pose proof (u8_range b0). pose proof (u8_range b1).
    rewrite lor_shiftl_add by (change (2 ^ 8) with 256; lia).
    change (2 ^ 8) with 256. lia.
Qed.

Lemma X9_prom_read_replaces_table_witness :
  let env := env_const [0x9C; 0xBF] in
  MS5611PromRead hw0 example_prom env [] = MS5611PromRead hw0 prom0 env [] /\
  prom_wf (snd (fst (MS5611PromRead hw0 prom0 env []))).
Proof.
  cbv zeta.
  apply (X9_prom_read_replaces_table hw0 prom0 example_prom (env_const [0x9C; 0xBF]) []).
  - intros t. cbn. lia.
  - reflexivity.
Defined.

(** ** Compensation without overflow *)

Lemma s32_u32 z : s32 (u32 z) = s32 z.
Proof.
  unfold s32, u32, wraps, wrapu. rewrite Z.add_mod_idemp_l by lia. reflexivity.
Qed.

Lemma div_bounds z d k :
  0 < d -> - (k * d) <= z < k * d -> - k <= z / d < k.
Proof.
  intros Hd Hz. split.
  - apply Z.div_le_lower_bound; lia.
  - apply Z.div_lt_upper_bound; lia.
Qed.

Lemma mul_bounds a b ka kb :
  - ka <= a <= ka -> - kb <= b <= kb -> - (ka * kb) <= a * b <= ka * kb.
Proof. intros Ha Hb. nia. Qed.



(** ** First-order values and the two guards *)

Lemma locals_head prom sample :
  let d := s32 (u32 (raw_temperature sample - s32 (Z.shiftl (tref prom) 8))) in
  let l := Data_Convert_locals prom sample in
  dT l = d /\
  TEMP1 l = s32 (s64 (2000 + Z.shiftr (s64 (d * tempsens prom)) 23)) /\
  OFF1 l = s64 (s64 (Z.shiftl (off prom) 16) + Z.shiftr (s64 (tco prom * d)) 7) /\
  SENS1 l = s64 (s64 (Z.shiftl (sens prom) 15) + Z.shiftr (s64 (tcs prom * d)) 8) /\
  low_branch l = (TEMP1 l <? 2000) /\
  cold_branch l = (TEMP1 l <? -1500).
Proof.
  cbv zeta. unfold Data_Convert_locals.
  destruct (_ <? 2000) eqn:E1; [destruct (_ <? -1500) eqn:E2 |];
    cbn [dT TEMP1 OFF1 SENS1 low_branch cold_branch]; rewrite ?E1, ?E2;
    repeat split.
  apply Z.ltb_ge in E1. symmetry. apply Z.ltb_ge. lia.
Qed.

Lemma first_order_values prom sample :
  prom_wf prom -> raw24 sample ->
  let l := Data_Convert_locals prom sample in
  dT l = raw_temperature sample - tref prom * 256 /\
  TEMP1 l = 2000 + (dT l * tempsens prom) / 2 ^ 23 /\
  OFF1 l = off prom * 2 ^ 16 + (tco prom * dT l) / 2 ^ 7 /\
  SENS1 l = sens prom * 2 ^ 15 + (tcs prom * dT l) / 2 ^ 8.
Proof.
  intros Hwf Hraw. cbv zeta.
  destruct (locals_head prom sample) as (EdT & ET & EO & ES & _).
  rewrite ET, EO, ES, EdT. clear ET EO ES EdT.
  destruct prom as [c0 c1 c2 c3 c4 c5 c6 c7]. destruct sample as [D1 D2].
  unfold prom_wf, raw24 in *.
  cbn [reserved sens off tcs tco tref tempsens crc raw_pressure raw_temperature] in *.
  change (2 ^ 24) with 16777216 in Hraw.
  destruct Hwf as (_ & Hc1 & Hc2 & Hc3 & Hc4 & Hc5 & Hc6 & _).
  destruct Hraw as (HD1 & HD2).
  rewrite !Z.shiftl_mul_pow2 by lia.
  change (2 ^ 8) with 256. change (2 ^ 16) with 65536. change (2 ^ 15) with 32768.
  rewrite (s32_id (c5 * 256)) by (unfold in_s32; lia).
  rewrite s32_u32, (s32_id (D2 - c5 * 256)) by (unfold in_s32; lia).
  set (d := D2 - c5 * 256) in *.
  assert (Hd : - 16777216 <= d <= 16777216) by (unfold d; lia).
  pose proof (mul_bounds d c6 16777216 65536 Hd ltac:(lia)) as Hp6.
  pose proof (mul_bounds c4 d 65536 16777216 ltac:(lia) Hd) as Hp4.
  pose proof (mul_bounds c3 d 65536 16777216 ltac:(lia) Hd) as Hp3.
  rewrite (s64_id (d * c6)), (s64_id (c4 * d)), (s64_id (c3 * d))
    by (unfold in_s64; lia).
  rewrite !Z.shiftr_div_pow2 by lia.
  change (2 ^ 23) with 8388608. change (2 ^ 7) with 128. change (2 ^ 8) with 256.
  pose proof (div_bounds (d * c6) 8388608 131073 ltac:(lia) ltac:(lia)) as Hq6.
  pose proof (div_bounds (c4 * d) 128 8589934593 ltac:(lia) ltac:(lia)) as Hq4.
  pose proof (div_bounds (c3 * d) 256 4294967297 ltac:(lia) ltac:(lia)) as Hq3.
  rewrite (s64_id (c2 * 65536)), (s64_id (c1 * 32768)) by (unfold in_s64; lia).
  rewrite (s64_id (2000 + _)), (s32_id (2000 + _)),
    (s64_id (c2 * 65536 + _)), (s64_id (c1 * 32768 + _))
    by (unfold in_s64, in_s32; lia).
  repeat split.
Qed.

(** X11: for 16-bit calibration words and a 24-bit raw sample the
    first-order values are exact: dT = D2 - tref * 256 without wrap-around,
    TEMP = 2000 + dT * tempsens / 2^23, OFF = off * 2^16 + tco * dT / 2^7 and
    SENS = sens * 2^15 + tcs * dT / 2^8 with divisions rounding toward minus
    infinity; dT lies in [-16776960, 16777215] and TEMP in
    [-129069, 133069]. *)
Theorem X11_first_order_exact prom sample :
  prom_wf prom -> raw24 sample ->
  let l := Data_Convert_locals prom sample in
  dT l = raw_temperature sample - tref prom * 256 /\
  TEMP1 l = 2000 + (dT l * tempsens prom) / 2 ^ 23 /\
  OFF1 l = off prom * 2 ^ 16 + (tco prom * dT l) / 2 ^ 7 /\
  SENS1 l = sens prom * 2 ^ 15 + (tcs prom * dT l) / 2 ^ 8 /\
  - 16776960 <= dT l <= 16777215 /\
  - 129069 <= TEMP1 l <= 133069.
Proof.
  intros Hwf Hraw. cbv zeta.
  destruct (first_order_values prom sample Hwf Hraw) as (Ed & ET & EO & ES).
  split; [exact Ed |]. split; [exact ET |]. split; [exact EO |]. split; [exact ES |].
  assert (Hd : - 16776960 <= dT (Data_Convert_locals prom sample) <= 16777215).
  { rewrite Ed. destruct Hwf as (_ & _ & _ & _ & _ & H5 & _). destruct Hraw as (_ & H2).
    change (2 ^ 24) with 16777216 in H2. lia. }
  split; [exact Hd |].
  rewrite ET. set (d := dT _) in *.
  destruct Hwf as (_ & _ & _ & _ & _ & _ & H6 & _).
  change (2 ^ 23) with 8388608.
  assert (Hlo : - 131069 <= d * tempsens prom / 8388608).
  { apply Z.div_le_lower_bound; [lia |]. nia. }
  assert (Hhi : d * tempsens prom / 8388608 < 131070).
  { apply Z.div_lt_upper_bound; [lia |]. nia. }
  lia.
Qed.

Lemma X11_first_order_exact_witness :
  let l := Data_Convert_locals example_prom (mkRaw 9085466 8569150) in
  dT l = 8569150 - 33464 * 256 /\ TEMP1 l = 2007.
Proof.
  cbv zeta.
  assert (Hwf : prom_wf example_prom) by (vm_compute; repeat split; discriminate).
  assert (Hraw : raw24 (mkRaw 9085466 8569150)) by (vm_compute; repeat split; discriminate).
  destruct (X11_first_order_exact example_prom (mkRaw 9085466 8569150) Hwf Hraw)
    as (Ed & ET & _).
  split; [exact Ed |]. reflexivity.
Defined.

(** X12: for 16-bit calibration words and a 24-bit raw sample, the
    second-order correction runs exactly when the raw temperature is below
    tref * 256 and tempsens is not 0, and its very-cold part runs exactly
    when (D2 - tref * 256) * tempsens < -3500 * 2^23. *)
Theorem X12_branch_conditions prom sample :
  prom_wf prom -> raw24 sample ->
  let l := Data_Convert_locals prom sample in
  (low_branch l = true <->
   raw_temperature sample < tref prom * 256 /\ 0 < tempsens prom) /\
  (cold_branch l = true <->
   (raw_temperature sample - tref prom * 256) * tempsens prom < - 3500 * 2 ^ 23).
Proof.
  intros Hwf Hraw. cbv zeta.
  destruct (first_order_values prom sample Hwf Hraw) as (Ed & ET & _).
  destruct (locals_head prom sample) as (_ & _ & _ & _ & El & Ec).
  rewrite El, Ec, ET, Ed. clear El Ec ET Ed.
  destruct Hwf as (_ & _ & _ & _ & _ & _ & H6 & _).
  set (d := raw_temperature sample - tref prom * 256).
  set (c := tempsens prom) in *.
  change (2 ^ 23) with 8388608.
  pose proof (Z.div_mod (d * c) 8388608 ltac:(lia)) as Hdm.
  pose proof (Z.mod_pos_bound (d * c) 8388608 ltac:(lia)) as Hm.
  rewrite !Z.ltb_lt.
  split; split; intros H; try nia.
  assert (Hneg : d * c < 0) by lia.
  assert (Hc : 0 < c).
  { destruct (Z.eq_dec c 0) as [E | E]; [rewrite E, Z.mul_0_r in Hneg |]; lia. }
  assert (Hd : d < 0).
  { destruct (Z_lt_le_dec d 0) as [Hlt | Hge]; [exact Hlt |].
    pose proof (Z.mul_nonneg_nonneg d c Hge ltac:(lia)). lia. }
  unfold d in Hd. lia.
Qed.

Lemma X12_branch_conditions_witness :
  low_branch (Data_Convert_locals example_prom (mkRaw 6465444 8077636)) = true /\
  cold_branch (Data_Convert_locals example_prom (mkRaw 6465444 8077636)) = false.
Proof.
  assert (Hwf : prom_wf example_prom) by (vm_compute; repeat split; discriminate).
  assert (Hraw : raw24 (mkRaw 6465444 8077636)) by (vm_compute; repeat split; discriminate).
  destruct (X12_branch_conditions example_prom (mkRaw 6465444 8077636) Hwf Hraw)
    as (Hl & Hc).
  split.
  - apply Hl. vm_compute. split; reflexivity.
  - reflexivity.
Defined.

(** X13: whenever the first-order temperature is below -1500 and the square
    of TEMP + 1500 fits [int32_t], the very-cold part runs and adds exactly
    7 x (TEMP+1500)^2 to OFF2 and the floor of 11 x (TEMP+1500)^2 / 2 to
    SENS2; it raises OFF2 by at least 7 and SENS2 by at least 5. *)
Theorem X13_cold_correction prom sample :
  let l := Data_Convert_locals prom sample in
  TEMP1 l < -1500 ->
  (TEMP1 l + 1500) ^ 2 < 2 ^ 31 ->
  cold_branch l = true /\
  OFF2 l = OFF2_low l + 7 * (TEMP1 l + 1500) ^ 2 /\
  SENS2 l = SENS2_low l + 11 * (TEMP1 l + 1500) ^ 2 / 2 /\
  OFF2_low l + 7 <= OFF2 l /\
  SENS2_low l + 5 <= SENS2 l.
Proof.
  cbv zeta. intros Hlt Hsq.
  destruct (cold_correction_in_range prom sample Hlt Hsq) as (Hc & Ho & Hs).
  rewrite Z.shiftr_div_pow2 in Hs by lia. change (2 ^ 1) with 2 in Hs.
  set (T := TEMP1 (Data_Convert_locals prom sample)) in *.
  clearbody T.
  assert (H1 : 1 <= (T + 1500) ^ 2).
  { rewrite Z.pow_2_r. nia. }
  assert (H5 : 5 <= 11 * (T + 1500) ^ 2 / 2).
  { apply Z.div_le_lower_bound; lia. }
  repeat split; try assumption; lia.
Qed.

Lemma X13_cold_correction_witness :
  let l := Data_Convert_locals example_prom (mkRaw 6465444 0) in
  TEMP1 l = -26914 /\ OFF2 l = OFF2_low l + 7 * (-26914 + 1500) ^ 2.
Proof.
  cbv zeta. split; [reflexivity |].
  destruct (X13_cold_correction example_prom (mkRaw 6465444 0)
              ltac:(vm_compute; reflexivity) ltac:(vm_compute; reflexivity))
    as (_ & Ho & _).
  exact Ho.
Defined.

(** ** A failed calibration read keeps the words it did not reach *)

Lemma store16_other p a w i : i <> a -> load16 (store16 p a w) i = load16 p i.
Proof.
  intros Hne. destruct p.
  destruct a as [| [[[a | a |] | [a | a |] |] | [[a | a |] | [a | a |] |] |] | a];
    cbn [store16]; try reflexivity;
    destruct i as [| [[[i | i |] | [i | i |] |] | [[i | i |] | [i | i |] |] |] | i];
    try reflexivity; congruence.
Qed.

Lemma prom_read_words_nonempty h a rest p env hist :
  (3 <= length (snd (prom_read_words h (a :: rest) p env hist)))%nat.
Proof.
  rewrite prom_read_words_cons. cbv zeta.
  destruct (is_OK _); [| cbn; lia].
  destruct (is_OK _); cbn; lia.
Qed.

(** When the first loop has made at most four calls per address of [pre],
    the word of the address that follows [pre] is the one it started with. *)
Lemma prom_read_words_keeps h pre : forall i post p env hist,
  ~ In i pre ->
  (length (snd (prom_read_words h (pre ++ i :: post) p env hist)) <= 4 * length pre)%nat ->
  load16 (snd (fst (prom_read_words h (pre ++ i :: post) p env hist))) i = load16 p i.
Proof.
  induction pre as [| a pre IH]; intros i post p env hist Hnin Hlen.
  - cbn [app] in Hlen. pose proof (prom_read_words_nonempty h i post p env hist).
    cbn [length] in Hlen. lia.
  - cbn [app] in *. rewrite prom_read_words_cons in *. cbv zeta in *.
    assert (Hne : i <> a) by (intros ->; apply Hnin; left; reflexivity).
    assert (Hnin' : ~ In i pre) by (intros Hin; apply Hnin; right; exact Hin).
    destruct (is_OK _); [| reflexivity].
    destruct (is_OK _).
    + cbn [fst snd length] in *. rewrite IH.
      * apply store16_other. exact Hne.
      * exact Hnin'.
      * lia.
    + cbn [fst snd]. apply store16_other. exact Hne.
Qed.

Ltac keep_word pre i post :=
  change prom_addresses with (pre ++ i :: post) in *;
  apply (prom_read_words_keeps _ pre i post);
  [cbn; intuition lia | cbn [length]; lia].

(** X14: [MS5611PromRead] is not all-or-nothing.  When it stopped before
    the transaction of word [i] began (it made at most 4 * i calls), it
    returns [MS5611_HAL_ERROR] and word [i] of the table still holds the value
    it held on entry. *)
Theorem X14_prom_read_keeps_unreached_words h p env hist i :
  In i prom_addresses ->
  Z.of_nat (length (snd (MS5611PromRead h p env hist))) <= 4 * i ->
  fst (fst (MS5611PromRead h p env hist)) = MS5611_HAL_ERROR /\
  load16 (snd (fst (MS5611PromRead h p env hist))) i = load16 p i.
Proof.
  intros Hin Hlen. rewrite PromRead_unfold in *. cbv zeta in *.
  destruct (fst (fst (prom_read_words h prom_addresses p env hist))) eqn:Hok.
  - exfalso. cbn [snd] in Hlen.
    destruct (prom_read_words_success h prom_addresses p env hist Hok) as (Hev & _).
    rewrite Hev in Hlen. cbn [In prom_addresses] in Hin.
    cbn [flat_map prom_addresses app length] in Hlen.
    repeat (destruct Hin as [<- | Hin]; [lia |]). contradiction.
  - cbn [fst snd] in *. split; [reflexivity |].
    cbn [In prom_addresses] in Hin.
    destruct Hin as [<- | Hin]; [keep_word (@nil Z) 0 [1; 2; 3; 4; 5; 6; 7] |].
    destruct Hin as [<- | Hin]; [keep_word [0] 1 [2; 3; 4; 5; 6; 7] |].
    destruct Hin as [<- | Hin]; [keep_word [0; 1] 2 [3; 4; 5; 6; 7] |].
    destruct Hin as [<- | Hin]; [keep_word [0; 1; 2] 3 [4; 5; 6; 7] |].
    destruct Hin as [<- | Hin]; [keep_word [0; 1; 2; 3] 4 [5; 6; 7] |].
    destruct Hin as [<- | Hin]; [keep_word [0; 1; 2; 3; 4] 5 [6; 7] |].
    destruct Hin as [<- | Hin]; [keep_word [0; 1; 2; 3; 4; 5] 6 [7] |].
    destruct Hin as [<- | Hin]; [keep_word [0; 1; 2; 3; 4; 5; 6] 7 (@nil Z) |].
    contradiction.
Qed.

Lemma X14_prom_read_keeps_unreached_words_witness :
  let r := MS5611PromRead hw0 example_prom (env_fail_at 6 [0x12; 0x34]) [] in
  fst (fst r) = MS5611_HAL_ERROR /\
  load16 (snd (fst r)) 0 = 0x3412 /\
  load16 (snd (fst r)) 2 = 36924.
Proof.
  cbv zeta.
  destruct (X14_prom_read_keeps_unreached_words hw0 example_prom
              (env_fail_at 6 [0x12; 0x34]) [] 2 ltac:(cbn; auto)
              ltac:(vm_compute; discriminate)) as (Hs & Hw).
  split; [exact Hs |]. split; [reflexivity | exact Hw].
Defined.

(** ** From the bus to the compensation *)

Lemma ADC_Read_value_range h raw env hist :
  fst (fst (MS5611_ADC_Read h raw env hist)) = MS5611_STATE_READY ->
  0 <= snd (fst (MS5611_ADC_Read h raw env hist)) < 2 ^ 24.
Proof.
  unfold MS5611_ADC_Read. hal_unfold.
  case_status E; cbn [negb is_OK fst snd app]; try discriminate.
  case_status E'; cbn [negb is_OK fst snd app]; try discriminate.
  intros _. set (reply := fill [0; 0; 0] (rx _)).
  assert (Hby : Forall is_byte reply).
  { apply fill_bytes. repeat constructor; unfold is_byte; lia. }
  assert (H0 := nth_is_byte reply 0 Hby).
  assert (H1 := nth_is_byte reply 1 Hby).
  assert (H2 := nth_is_byte reply 2 Hby).
  destruct (be24_value _ _ _ H0 H1 H2) as (Hv & _).
  rewrite Hv. unfold is_byte in H0, H1, H2. change (2 ^ 24) with 16777216. lia.
Qed.

Lemma PromRead_success_wf h p env hist :
  (forall t, (2 <= length (rx (env t)))%nat) ->
  fst (fst (MS5611PromRead h p env hist)) = MS5611_STATE_READY ->
  prom_wf (snd (fst (MS5611PromRead h p env hist))).
Proof.
  intros Hlen Hok.
  destruct (PromRead_success_inv h p env hist Hok) as (Hw & Ht & _).
  destruct (prom_read_words_success h prom_addresses p env hist Hw) as (_ & Hc).
  rewrite Ht, Hc. apply prom_wf_load. intros i Hin.
  destruct (two_bytes _ (Hlen (hist_at_receive h hist i))) as (b0 & b1 & rest & Hrx).
  rewrite prom_swap_words_load by assumption.
  rewrite (captured_words_load h env hist p i b0 b1 rest Hin Hrx).
  rewrite swap_word_lor by apply u8_range.
  pose proof (u8_range b0). pose proof (u8_range b1).
  rewrite lor_shiftl_add by (change (2 ^ 8) with 256; lia).
  change (2 ^ 8) with 256. lia.
Qed.

(** X15: the driver's outputs meet the preconditions of the compensation.
    When every receive delivers at least two bytes, [MS5611_Init] returns
    [MS5611_STATE_READY] with no transfer having failed, and two calls of
    [MS5611_ADC_Read] succeed, the table is made of 16-bit words with [off]
    not 0, the two values read form a 24-bit sample, and on them
    [MS5611_Data_Convert] computes dT = D2 - tref * 256 and
    TEMP = 2000 + dT * tempsens / 2^23 without wrap-around. *)
Theorem X15_init_read_convert h p raw1 raw2 env hist hist1 hist2 :
  (forall t, (2 <= length (rx (env t)))%nat) ->
  fst (fst (MS5611_Init h p env hist)) = MS5611_STATE_READY ->
  any_failure env hist (snd (MS5611_Init h p env hist)) = false ->
  fst (fst (MS5611_ADC_Read h raw1 env hist1)) = MS5611_STATE_READY ->
  fst (fst (MS5611_ADC_Read h raw2 env hist2)) = MS5611_STATE_READY ->
  let prom := snd (fst (MS5611_Init h p env hist)) in
  let sample := mkRaw (snd (fst (MS5611_ADC_Read h raw1 env hist1)))
                      (snd (fst (MS5611_ADC_Read h raw2 env hist2))) in
  let l := Data_Convert_locals prom sample in
  prom_wf prom /\ off prom <> 0 /\ raw24 sample /\
  dT l = raw_temperature sample - tref prom * 256 /\
  TEMP1 l = 2000 + (dT l * tempsens prom) / 2 ^ 23.
Proof.
  intros Hlen Hready Hnof Ha1 Ha2. cbv zeta.
  assert (Hwf : prom_wf (snd (fst (MS5611_Init h p env hist)))).
  { revert Hready Hnof. rewrite Init_unfold. cbv zeta.
    destruct (is_OK _) eqn:E; [| discriminate].
    cbn [fst snd]. intros _ Hnof.
    rewrite any_failure_app in Hnof. apply orb_false_elim in Hnof.
    destruct Hnof as (_ & Hp).
    apply PromRead_success_wf; [exact Hlen |].
    destruct (PromRead_status h p env (hist ++ reset_transaction h)) as [Hs | Hs];
      [exact Hs |].
    apply PromRead_error_iff in Hs. congruence. }
  assert (Hraw : raw24 (mkRaw (snd (fst (MS5611_ADC_Read h raw1 env hist1)))
                              (snd (fst (MS5611_ADC_Read h raw2 env hist2))))).
  { split; cbn [raw_pressure raw_temperature]; apply ADC_Read_value_range; assumption. }
  destruct (first_order_values _ _ Hwf Hraw) as (Ed & ET & _).
  destruct (Init_ready_table h p env hist Hready) as (Hoff & _).
  repeat split; try assumption; apply Hwf || apply Hraw.
Qed.

Lemma X15_init_read_convert_witness :
  let env := env_const [0x82; 0xB8; 0x00] in
  let prom := snd (fst (MS5611_Init hw0 prom0 env [])) in
  let sample := mkRaw (snd (fst (MS5611_ADC_Read hw0 0 env [])))
                      (snd (fst (MS5611_ADC_Read hw0 0 env []))) in
  prom = mkProm 0x82B8 0x82B8 0x82B8 0x82B8 0x82B8 0x82B8 0x82B8 0x82B8 /\
  sample = mkRaw 0x82B800 0x82B800 /\
  dT (Data_Convert_locals prom sample) = 0.
Proof.
  cbv zeta. split; [reflexivity |]. split; [reflexivity |].
  destruct (X15_init_read_convert hw0 prom0 0 0 (env_const [0x82; 0xB8; 0x00]) [] [] []
              ltac:(intros t; cbn; lia) eq_refl eq_refl eq_refl eq_refl)
    as (_ & _ & _ & Ed & _).
  rewrite Ed. reflexivity.
Defined.

(** ** A failed calibration read leaves the words it read unswapped *)

Lemma load16_store16_same p i w :
  In i prom_addresses -> load16 (store16 p i w) i = w.
Proof.
  intros Hin. destruct p. cbn [In prom_addresses] in Hin.
  repeat (destruct Hin as [<- | Hin]; [reflexivity |]). contradiction.
Qed.

Lemma prom_read_words_frame h addrs : forall i p env hist,
  ~ In i addrs ->
  load16 (snd (fst (prom_read_words h addrs p env hist))) i = load16 p i.
Proof.
  induction addrs as [| a rest IH]; intros i p env hist Hnin; [reflexivity |].
  assert (Hne : i <> a) by (intros ->; apply Hnin; left; reflexivity).
  assert (Hnin' : ~ In i rest) by (intros Hin; apply Hnin; right; exact Hin).
  rewrite prom_read_words_cons. cbv zeta.
  destruct (is_OK _); [| reflexivity].
  destruct (is_OK _); cbn [fst snd].
  - rewrite IH by exact Hnin'. apply store16_other. exact Hne.
  - apply store16_other. exact Hne.
Qed.

Lemma prom_read_words_reached h pre : forall i post p env hist b0 b1 rest,
  In i prom_addresses ->
  ~ In i post ->
  (4 * length pre + 4 <=
   length (snd (prom_read_words h (pre ++ i :: post) p env hist)))%nat ->
  rx (env (hist ++ flat_map (loop_transaction h) pre
                ++ firstn 3 (loop_transaction h i))) = b0 :: b1 :: rest ->
  load16 (snd (fst (prom_read_words h (pre ++ i :: post) p env hist))) i =
  Z.lor (u8 b0) (Z.shiftl (u8 b1) 8).
Proof.
  induction pre as [| a pre IH]; intros i post p env hist b0 b1 rest Hin Hnin Hlen Hrx.
  - cbn [app flat_map firstn loop_transaction length] in *.
    rewrite prom_read_words_cons in *. cbv zeta in *.
    destruct (is_OK _); [| cbn [snd length] in Hlen; lia].
    rewrite Hrx.
    destruct (is_OK _); cbn [fst snd].
    + rewrite prom_read_words_frame by exact Hnin.
      rewrite load16_store16_same by exact Hin. reflexivity.
    + rewrite load16_store16_same by exact Hin. reflexivity.
  - cbn [app flat_map length] in *.
    rewrite prom_read_words_cons in *. cbv zeta in *.
    destruct (is_OK _); [| cbn [snd length] in Hlen; lia].
    destruct (is_OK _); [| cbn [snd length] in Hlen; lia].
    cbn [fst snd length] in *.
    apply (IH i post _ env _ b0 b1 rest Hin Hnin); [lia |].
    rewrite <- Hrx. unfold loop_transaction at 3. rewrite <- !app_assoc.
    reflexivity.
Qed.

Ltac reached_word pre i post :=
  change prom_addresses with (pre ++ i :: post) in *;
  match goal with
  | Hrx : rx _ = ?b0 :: ?b1 :: ?rest |- _ =>
      apply (prom_read_words_reached _ pre i post _ _ _ b0 b1 rest);
      [ cbn; auto 10 | cbn; intuition lia | cbn [length]; lia | exact Hrx ]
  end.

(** X16: a failed [MS5611PromRead] leaves the words it had received in wire
    order.  When it returns [MS5611_HAL_ERROR] after the receive of word [i]
    (it made at least 4 * i + 4 calls) and that receive delivered the bytes
    [b0], [b1], word [i] of the table is [b0 | b1 << 8], not the value
    [(b0 << 8) | b1] that a successful read stores. *)
Theorem X16_prom_read_failure_unswapped h p env hist i b0 b1 rest :
  In i prom_addresses ->
  fst (fst (MS5611PromRead h p env hist)) = MS5611_HAL_ERROR ->
  4 * i + 4 <= Z.of_nat (length (snd (MS5611PromRead h p env hist))) ->
  rx (env (hist_at_receive h hist i)) = b0 :: b1 :: rest ->
  load16 (snd (fst (MS5611PromRead h p env hist))) i =
  Z.lor (u8 b0) (Z.shiftl (u8 b1) 8).
Proof.
  intros Hin Herr Hlen Hrx. rewrite PromRead_unfold in *. cbv zeta in *.
  destruct (fst (fst (prom_read_words h prom_addresses p env hist))) eqn:Hok;
    [discriminate |].
  cbn [fst snd] in *. clear Herr.
  unfold hist_at_receive in Hrx. cbn [In prom_addresses] in Hin.
  repeat (destruct Hin as [<- | Hin];
    [ match type of Hrx with
      | context [firstn (Z.to_nat ?k) ?l] =>
          let pre := eval vm_compute in (firstn (Z.to_nat k) l) in
          let post := eval vm_compute in (skipn (S (Z.to_nat k)) l) in
          change (firstn (Z.to_nat k) l) with pre in Hrx;
          reached_word pre k post
      end |]).
  contradiction.
Qed.

Lemma X16_prom_read_failure_unswapped_witness :
  let r := MS5611PromRead hw0 example_prom (env_fail_at 6 [0x9C; 0xBF]) [] in
  fst (fst r) = MS5611_HAL_ERROR /\ load16 (snd (fst r)) 0 = 0xBF9C.
Proof.
  cbv zeta. split; [reflexivity |].
  apply (X16_prom_read_failure_unswapped hw0 example_prom
           (env_fail_at 6 [0x9C; 0xBF]) [] 0 0x9C 0xBF []).
  - cbn. auto.
  - reflexivity.
  - vm_compute. discriminate.
  - reflexivity.
Defined.

(** ** Initialisation over an earlier table *)

(** X17: [MS5611_Init] can report a stale table as ready.  When the reset
    transmit succeeds, the first transmit of the calibration read fails, and
    the table held before the call has [off] not 0 and [tref] not 0xff,
    [MS5611_Init] returns [MS5611_STATE_READY] and leaves that table
    untouched. *)
Theorem X17_init_ready_with_stale_table h p env hist :
  status (env (hist ++
    [WritePin (CS_GPIOport h) (CS_GPIOpin h) GPIO_PIN_RESET;
     Transmit (SPIhandler h) [0x1E] 1 10])) = HAL_OK ->
  status (env (hist ++ reset_transaction h ++
    [WritePin (CS_GPIOport h) (CS_GPIOpin h) GPIO_PIN_RESET;
     Transmit (SPIhandler h) [0xA0] 1 10])) <> HAL_OK ->
  off p <> 0 -> tref p <> 0xff ->
  MS5611_Init h p env hist =
  ((MS5611_STATE_READY, p),
   reset_transaction h ++
   [WritePin (CS_GPIOport h) (CS_GPIOpin h) GPIO_PIN_RESET;
    Transmit (SPIhandler h) [0xA0] 1 10;
    WritePin (CS_GPIOport h) (CS_GPIOpin h) GPIO_PIN_SET]).
Proof.
  intros Hreset Hfail Hoff Htref.
  rewrite Init_unfold. cbv zeta. change RESET_COMMAND with 30. rewrite Hreset.
  cbn [is_OK]. rewrite PromRead_unfold. cbv zeta.
  unfold prom_addresses. rewrite prom_read_words_cons. cbv zeta.
  change (u8 (PROM_READ 0)) with 160. rewrite <- app_assoc.
  destruct (is_OK _) eqn:E; [apply is_OK_true in E; contradiction |].
  cbn [fst snd].
  apply Z.eqb_neq in Hoff. apply Z.eqb_neq in Htref. rewrite Hoff, Htref.
  reflexivity.
Qed.

Lemma X17_init_ready_with_stale_table_witness :
  MS5611_Init hw0 example_prom (env_fail_at 6 []) [] =
  ((MS5611_STATE_READY, example_prom),
   [WritePin 2 3 GPIO_PIN_RESET; Transmit 1 [0x1E] 1 10; Delay 3;
    WritePin 2 3 GPIO_PIN_SET;
    WritePin 2 3 GPIO_PIN_RESET; Transmit 1 [0xA0] 1 10; WritePin 2 3 GPIO_PIN_SET]).
Proof.
  apply (X17_init_ready_with_stale_table hw0 example_prom (env_fail_at 6 []) []).
  - reflexivity.
  - vm_compute. discriminate.
  - vm_compute. discriminate.
  - vm_compute. discriminate.
Defined.

(** X18: starting from a table with [off = 0] (the zero-initialised table
    of a fresh start), a calibration read that stops before the transaction
    of word 2 begins makes [MS5611_Init] return [MS5611_STATE_FAILED]:
    [MS5611_Init] then made at most 12 calls, and [off] is still 0. *)
Theorem X18_init_failed_when_off_unreached h p env hist :
  status (env (hist ++
    [WritePin (CS_GPIOport h) (CS_GPIOpin h) GPIO_PIN_RESET;
     Transmit (SPIhandler h) [0x1E] 1 10])) = HAL_OK ->
  off p = 0 ->
  Z.of_nat (length (snd (MS5611_Init h p env hist))) <= 12 ->
  fst (fst (MS5611_Init h p env hist)) = MS5611_STATE_FAILED /\
  off (snd (fst (MS5611_Init h p env hist))) = 0.
Proof.
  intros Hreset Hoff. rewrite Init_unfold. cbv zeta.
  change RESET_COMMAND with 30. rewrite Hreset. cbn [is_OK fst snd].
  rewrite length_app. unfold reset_transaction at 1. cbn [length]. intros Hlen.
  rewrite PromRead_unfold in *. cbv zeta in *.
  assert (Hkeep : off (snd (fst (prom_read_words h prom_addresses p env
                                   (hist ++ reset_transaction h)))) = 0).
  { rewrite <- Hoff.
    change prom_addresses with ([0; 1] ++ 2 :: [3; 4; 5; 6; 7]) in *.
    apply (prom_read_words_keeps h [0; 1] 2 [3; 4; 5; 6; 7]).
    - cbn. intuition lia.
    - cbn [length].
      destruct (fst (fst (prom_read_words _ _ _ _ _))); cbn [snd] in Hlen; lia. }
  destruct (fst (fst (prom_read_words h prom_addresses p env
                        (hist ++ reset_transaction h)))) eqn:Hok.
  - exfalso. cbn [snd] in Hlen.
    destruct (prom_read_words_success h prom_addresses p env _ Hok) as (Hev & _).
    rewrite Hev in Hlen. cbn [flat_map prom_addresses app length] in Hlen. lia.
  - cbn [fst snd]. rewrite Hkeep. cbn [Z.eqb orb]. split; reflexivity.
Qed.

Lemma X18_init_failed_when_off_unreached_witness :
  fst (fst (MS5611_Init hw0 prom0 (env_fail_at 11 [0x12; 0x34]) [])) =
    MS5611_STATE_FAILED /\
  snd (fst (MS5611_Init hw0 prom0 (env_fail_at 11 [0x12; 0x34]) [])) =
    mkProm 0x3412 0 0 0 0 0 0 0.
Proof.
  split; [| reflexivity].
  apply (X18_init_failed_when_off_unreached hw0 prom0 (env_fail_at 11 [0x12; 0x34]) []).
  - reflexivity.
  - reflexivity.
  - vm_compute. discriminate.
Defined.
